(** * cai-orc: the document processing pipeline

    A shallow embedding of the document record ([models/Document.ts]), the
    OCR and AI-extraction services ([lib/services/glmOcr.ts],
    [lib/services/glmParser.ts]), the audit log ([models/AuditLog.ts]) and the
    route handlers that drive them ([api/documents/process],
    [api/documents/upload], [api/documents/[id]]).

    Conventions of the embedding.
    - A JavaScript number that is a count, a size or a timestamp is a [Z];
      the confidence score, which is computed by a division, is an exact
      rational ([Q]).
    - A JavaScript string is a [string]; its [length] is [String.length]
      (one character of the model per code unit).
    - A JavaScript object used as a dictionary ([parsedData], the Document
      collection) is a [gmap] with string keys.
    - [async] functions are computations in the monad [M]: they thread the
      world (database collections, file store, clock, traces) and either
      return or throw; [await] is bind, [try { } catch { }] is [try_catch].
    - The remote collaborators, [JSON.parse], the prompt texts and the
      outcome of each audit-log insertion are fields of a record
      [Collaborators] over which every theorem quantifies.
    - Saving a document and inserting it always succeed; Mongoose's
      automatic [createdAt]/[updatedAt] stamps and its schema casting are
      outside the model. *)

From Stdlib Require Import ZArith QArith Qminmax Lia Ascii String.
From stdpp Require Import base option list strings gmap.

Close Scope Q_scope.
Local Open Scope string_scope.
Local Open Scope list_scope.

(** ** JSON values ([any] in the source) *)

#[warnings="-register-all"]
Inductive JValue : Type :=
| JNull
| JBool (b : bool)
| JNum (n : Z)
| JStr (s : string)
| JArr (items : list JValue)
| JObj (fields : list (string * JValue)).

(** Property access [o.k] on a parsed JSON value; [None] is [undefined]. *)
Fixpoint assoc_get (k : string) (fields : list (string * JValue)) : option JValue :=
  match fields with
  | [] => None
  | (k', v) :: rest => if String.eqb k k' then Some v else assoc_get k rest
  end.

Definition jget (k : string) (v : JValue) : option JValue :=
  match v with
  | JObj fields => assoc_get k fields
  | _ => None
  end.

(** ** types/document.ts *)

(** [DocumentType] is a union of string literals; at run time the
    classification step can put any string there, so it is a [string]. *)
Definition DocumentType := string.

Inductive DocumentStatus : Type := processing | completed | failed.

Inductive ErrorStage : Type := stage_upload | stage_ocr | stage_ai_parse | stage_database.

#[global] Instance DocumentStatus_eq_dec : EqDecision DocumentStatus.
Proof. solve_decision. Defined.

#[global] Instance ErrorStage_eq_dec : EqDecision ErrorStage.
Proof. solve_decision. Defined.

Record LayoutDetail : Type := mkLayoutDetail {
  index : Z;
  label : string;
  bbox_2d : list Z;
  content : string;
  height : Z;
  width : Z;
  page : option Z;
}.

(** ** lib/services/glmOcr.ts: pure helpers *)

Module GlmOcrService.

(** [layoutDetails.forEach((pageDetails, pageIndex) => pageDetails.forEach(
    detail => result.push({...detail, page: pageIndex + 1})))] *)
Fixpoint normalizeFrom (pageIndex : Z) (layoutDetails : list (list LayoutDetail))
  : list LayoutDetail :=
  match layoutDetails with
  | [] => []
  | pageDetails :: rest =>
      map (fun detail =>
             {| index := index detail; label := label detail;
                bbox_2d := bbox_2d detail; content := content detail;
                height := height detail; width := width detail;
                page := Some (pageIndex + 1)%Z |}) pageDetails
      ++ normalizeFrom (pageIndex + 1)%Z rest
  end.

Definition normalizeLayoutDetails (layoutDetails : list (list LayoutDetail))
  : list LayoutDetail :=
  normalizeFrom 0%Z layoutDetails.

(** [allItems.reduce((sum, item) => sum + item.content.length, 0)] *)
Definition totalContentLength (allItems : list LayoutDetail) : Z :=
  fold_left (fun sum item => (sum + Z.of_nat (String.length (content item)))%Z)
            allItems 0%Z.

(** [calculateConfidence]:
    [if (allItems.length === 0) return 0;]
    [return Math.min(100, (totalContentLength / 10) * 2);] *)
Definition calculateConfidence (layoutDetails : list (list LayoutDetail)) : Q :=
  let allItems := concat layoutDetails in
  if (length allItems =? 0)%nat then 0%Q
  else Qmin 100 ((inject_Z (totalContentLength allItems) / 10) * 2)%Q.

End GlmOcrService.

(** ** models/Document.ts: the record *)

(** [OcrResultSchema]: the payload handed to [updateOcrResult]. *)
Record OcrResult : Type := mkOcrResult {
  mdResults : string;
  layoutDetails : list LayoutDetail;
  numPages : option Z;
}.

(** [ErrorSchema] *)
Record ErrorInfo : Type := mkErrorInfo {
  message : string;
  code : option string;
  stage : option ErrorStage;
}.

(** The [error?: any] argument of [updateStatus]: every property may be
    [undefined]. *)
Record ErrorArg : Type := mkErrorArg {
  arg_message : option string;
  arg_code : option string;
  arg_stage : option ErrorStage;
}.

(** [metadata] *)
Record Metadata : Type := mkMetadata {
  fileSize : Z;
  pageCount : option Z;
  confidence : option Q;
  ocrProcessedAt : option Z;
  aiParsedAt : option Z;
}.

(** [DocumentSchema].  [parsedData] is the object the pipeline builds as
    [{ [detectedType]: result }]: a dictionary from type key to JSON. *)
Record Doc : Type := mkDoc {
  _id : string;
  fileName : string;
  fileUrl : string;
  fileType : string;
  documentType : DocumentType;
  uploadDate : Z;
  status : DocumentStatus;
  ocrResult : option OcrResult;
  parsedData : option (gmap string JValue);
  metadata : Metadata;
  error : option ErrorInfo;
}.

(** Field updates, one per assigned field. *)
Definition set_status (s : DocumentStatus) (d : Doc) : Doc :=
  {| _id := _id d; fileName := fileName d; fileUrl := fileUrl d;
     fileType := fileType d; documentType := documentType d;
     uploadDate := uploadDate d; status := s; ocrResult := ocrResult d;
     parsedData := parsedData d; metadata := metadata d; error := error d |}.

Definition set_error (e : option ErrorInfo) (d : Doc) : Doc :=
  {| _id := _id d; fileName := fileName d; fileUrl := fileUrl d;
     fileType := fileType d; documentType := documentType d;
     uploadDate := uploadDate d; status := status d; ocrResult := ocrResult d;
     parsedData := parsedData d; metadata := metadata d; error := e |}.

Definition set_ocrResult (o : option OcrResult) (d : Doc) : Doc :=
  {| _id := _id d; fileName := fileName d; fileUrl := fileUrl d;
     fileType := fileType d; documentType := documentType d;
     uploadDate := uploadDate d; status := status d; ocrResult := o;
     parsedData := parsedData d; metadata := metadata d; error := error d |}.

Definition set_parsedData (p : option (gmap string JValue)) (d : Doc) : Doc :=
  {| _id := _id d; fileName := fileName d; fileUrl := fileUrl d;
     fileType := fileType d; documentType := documentType d;
     uploadDate := uploadDate d; status := status d; ocrResult := ocrResult d;
     parsedData := p; metadata := metadata d; error := error d |}.

Definition set_documentType (t : DocumentType) (d : Doc) : Doc :=
  {| _id := _id d; fileName := fileName d; fileUrl := fileUrl d;
     fileType := fileType d; documentType := t;
     uploadDate := uploadDate d; status := status d; ocrResult := ocrResult d;
     parsedData := parsedData d; metadata := metadata d; error := error d |}.

Definition set_metadata (m : Metadata) (d : Doc) : Doc :=
  {| _id := _id d; fileName := fileName d; fileUrl := fileUrl d;
     fileType := fileType d; documentType := documentType d;
     uploadDate := uploadDate d; status := status d; ocrResult := ocrResult d;
     parsedData := parsedData d; metadata := m; error := error d |}.

Definition set_ocrProcessedAt (t : Z) (m : Metadata) : Metadata :=
  {| fileSize := fileSize m; pageCount := pageCount m; confidence := confidence m;
     ocrProcessedAt := Some t; aiParsedAt := aiParsedAt m |}.

Definition set_pageCount (n : option Z) (m : Metadata) : Metadata :=
  {| fileSize := fileSize m; pageCount := n; confidence := confidence m;
     ocrProcessedAt := ocrProcessedAt m; aiParsedAt := aiParsedAt m |}.

Definition set_aiParsedAt (t : Z) (m : Metadata) : Metadata :=
  {| fileSize := fileSize m; pageCount := pageCount m; confidence := confidence m;
     ocrProcessedAt := ocrProcessedAt m; aiParsedAt := Some t |}.

(** [x || fallback] on an optional string: [undefined] and [""] are falsy. *)
Definition str_or (x : option string) (fallback : string) : string :=
  match x with
  | Some s => if String.eqb s "" then fallback else s
  | None => fallback
  end.

(** ** models/AuditLog.ts *)

Inductive AuditAction : Type :=
| act_upload | act_view | act_update | act_delete
| act_reparse | act_export | act_batch_delete | act_batch_export.

Record AuditEntry : Type := mkAuditEntry {
  au_documentId : string;
  au_fileName : string;
  au_action : AuditAction;
  au_details : option (list (string * JValue));
  au_userId : option string;
}.

(** ** The world the handlers run in *)

(** Outbound calls, recorded by the service method that makes them. *)
Inductive RemoteCall : Type :=
| OcrCall (file : string)
| ClassifyCall (text : string)
| ExtractCall (docType : string) (text : string).

Record World : Type := mkWorld {
  documents : gmap string Doc;          (* the Document collection *)
  auditLogs : list AuditEntry;          (* the AuditLog collection, oldest first *)
  uploads : gmap string (list Z);       (* the upload directory: path -> bytes *)
  clock : Z;                            (* what [new Date()] reads next *)
  saved : list Doc;                     (* every snapshot written by [save()], oldest first *)
  remote : list RemoteCall;             (* every outbound call, oldest first *)
}.

(** An [async] function either resolves or rejects with an [Error]; the
    pipeline only ever reads the [message] of what it catches. *)
Inductive Outcome (A : Type) : Type :=
| Returned (a : A)
| Thrown (msg : string).
Arguments Returned {A} a.
Arguments Thrown {A} msg.

Definition M (S A : Type) : Type := S -> Outcome A * S.

Definition ret {S A} (a : A) : M S A := fun s => (Returned a, s).

Definition throw {S A} (msg : string) : M S A := fun s => (Thrown msg, s).

Definition bind {S A B} (m : M S A) (k : A -> M S B) : M S B :=
  fun s => match m s with
           | (Returned a, s') => k a s'
           | (Thrown e, s') => (Thrown e, s')
           end.

Definition try_catch {S A} (body : M S A) (handler : string -> M S A) : M S A :=
  fun s => match body s with
           | (Returned a, s') => (Returned a, s')
           | (Thrown e, s') => handler e s'
           end.

Definition gets {S A} (f : S -> A) : M S A := fun s => (Returned (f s), s).

Definition modify {S} (f : S -> S) : M S unit := fun s => (Returned tt, f s).

Notation "x <- m ;; k" := (bind m (fun x => k))
  (at level 100, m at level 99, right associativity).
Notation "m ;;; k" := (bind m (fun _ => k))
  (at level 100, right associativity).

(** While a handler holds a loaded Mongoose document, the state is the
    world together with that in-memory object ([this] inside the methods,
    [document] in the handlers).  The object is shared by the [try] blocks
    and their [catch] handlers. *)
Record Frame : Type := mkFrame {
  this : Doc;
  world : World;
}.

Definition on_this (f : Doc -> Doc) : M Frame unit :=
  modify (fun fr => {| this := f (this fr); world := world fr |}).

Definition lift {A} (m : M World A) : M Frame A :=
  fun fr => let (r, w) := m (world fr) in (r, {| this := this fr; world := w |}).

Definition set_documents (ds : gmap string Doc) (w : World) : World :=
  {| documents := ds; auditLogs := auditLogs w; uploads := uploads w;
     clock := clock w; saved := saved w; remote := remote w |}.

Definition set_auditLogs (l : list AuditEntry) (w : World) : World :=
  {| documents := documents w; auditLogs := l; uploads := uploads w;
     clock := clock w; saved := saved w; remote := remote w |}.

Definition set_uploads (u : gmap string (list Z)) (w : World) : World :=
  {| documents := documents w; auditLogs := auditLogs w; uploads := u;
     clock := clock w; saved := saved w; remote := remote w |}.

Definition set_clock (t : Z) (w : World) : World :=
  {| documents := documents w; auditLogs := auditLogs w; uploads := uploads w;
     clock := t; saved := saved w; remote := remote w |}.

Definition set_saved (l : list Doc) (w : World) : World :=
  {| documents := documents w; auditLogs := auditLogs w; uploads := uploads w;
     clock := clock w; saved := l; remote := remote w |}.

Definition set_remote (l : list RemoteCall) (w : World) : World :=
  {| documents := documents w; auditLogs := auditLogs w; uploads := uploads w;
     clock := clock w; saved := saved w; remote := l |}.

(** [new Date()]: read the clock; the next reading is later. *)
Definition new_Date : M World Z :=
  fun w => (Returned (clock w), set_clock (clock w + 1)%Z w).

Definition call (c : RemoteCall) : M World unit :=
  modify (fun w => set_remote (remote w ++ [c]) w).

(** [this.save()]: write the in-memory object to the collection. *)
Definition save : M Frame unit :=
  modify (fun fr =>
    {| this := this fr;
       world := set_saved (saved (world fr) ++ [this fr])
                  (set_documents (<[ _id (this fr) := this fr ]> (documents (world fr)))
                     (world fr)) |}).

(** ** models/Document.ts: instance methods *)

(** The assignments of [updateStatus], before [save()]. *)
Definition updateStatus_assign (st : DocumentStatus) (err : option ErrorArg) (d : Doc) : Doc :=
  let d := set_status st d in
  match err, st with
  | Some e, failed =>
      set_error (Some {| message := str_or (arg_message e) "Unknown error";
                         code := arg_code e;
                         stage := arg_stage e |}) d
  | _, _ => set_error None d
  end.

Definition updateStatus (st : DocumentStatus) (err : option ErrorArg) : M Frame unit :=
  on_this (updateStatus_assign st err) ;;; save.

(** [if (ocrResult.numPages)]: [undefined] and [0] are falsy. *)
Definition truthy_num (n : option Z) : bool :=
  match n with
  | Some k => negb (k =? 0)%Z
  | None => false
  end.

Definition updateOcrResult_assign (o : OcrResult) (now : Z) (d : Doc) : Doc :=
  let d := set_ocrResult (Some o) d in
  let d := set_metadata (set_ocrProcessedAt now (metadata d)) d in
  if truthy_num (numPages o)
  then set_metadata (set_pageCount (numPages o) (metadata d)) d
  else d.

Definition updateOcrResult (o : OcrResult) : M Frame unit :=
  now <- lift new_Date ;;
  on_this (updateOcrResult_assign o now) ;;; save.

(** [if (documentType)]: [undefined] and [""] are falsy. *)
Definition updateParsedData_assign (pd : gmap string JValue) (ty : option DocumentType)
    (now : Z) (d : Doc) : Doc :=
  let d := set_parsedData (Some pd) d in
  let d := set_metadata (set_aiParsedAt now (metadata d)) d in
  let d := match ty with
           | Some t => if String.eqb t "" then d else set_documentType t d
           | None => d
           end in
  set_status completed d.

Definition updateParsedData (pd : gmap string JValue) (ty : option DocumentType)
    : M Frame unit :=
  now <- lift new_Date ;;
  on_this (updateParsedData_assign pd ty now) ;;; save.

(** ** The collaborators *)

(** [GlmOcrResponse], as far as [ocrFromUrl] reads it. *)
Record GlmOcrResponse : Type := mkGlmOcrResponse {
  md_results : string;
  layout_details : list (list LayoutDetail);
  num_pages : option Z;
}.

Record Collaborators : Type := mkCollaborators {
  (* the POST of [GlmOcrService.parse], by file: the response, or the
     message of the error it throws *)
  ocr_api : string -> Outcome GlmOcrResponse;
  (* the POST of [GlmParserService.chat], by prompt: the reply's content,
     or the message of the error it throws *)
  chat_api : string -> Outcome string;
  (* [JSON.parse]; [None] when it throws *)
  JSON_parse : string -> option JValue;
  (* [PROMPT_TEMPLATES.detect_type.replace("{content}", text)] *)
  prompt_detect : string -> string;
  (* [PROMPT_TEMPLATES[key]] for the five extraction prompts *)
  prompt_template : string -> string;
  (* [AuditLog.create]: [None] when it resolves, the error's message
     when it rejects *)
  audit_create : AuditEntry -> option string;
  (* [generateFilename]: base name, [Date.now()] and a uuid prefix *)
  generate_filename : string -> string;
  (* the [_id] the database gives a created document *)
  new_ObjectId : gmap string Doc -> string;
}.

(** The line feed of the source's ["\n"]. *)
Definition nl : string := String (ascii_of_nat 10) EmptyString.

Definition perform {S A} (o : Outcome A) : M S A := fun s => (o, s).

(** ** models/AuditLog.ts: [AuditLogSchema.statics.log] *)

Definition AuditLog_log (co : Collaborators) (documentId fileName : string) (action : AuditAction)
    (details : option (list (string * JValue))) : M World unit :=
  let entry := {| au_documentId := documentId; au_fileName := fileName;
                  au_action := action; au_details := details;
                  au_userId := None |} in
  match audit_create co entry with
  | None => modify (fun w => set_auditLogs (auditLogs w ++ [entry]) w)
  | Some msg => throw msg
  end.

(** ** lib/services/glmOcr.ts: [ocrFromUrl] *)

Record OcrOutput : Type := mkOcrOutput {
  out_mdResults : string;
  out_layoutDetails : list LayoutDetail;
  out_numPages : option Z;
  out_confidence : Q;
}.

Definition parseFromUrl (co : Collaborators) (fileUrl : string) : M World GlmOcrResponse :=
  call (OcrCall fileUrl) ;;; perform (ocr_api co fileUrl).

Definition ocrFromUrl (co : Collaborators) (fileUrl : string) : M World OcrOutput :=
  response <- parseFromUrl co fileUrl ;;
  ret {| out_mdResults := md_results response;
         out_layoutDetails := GlmOcrService.normalizeLayoutDetails (layout_details response);
         out_numPages := num_pages response;
         out_confidence := GlmOcrService.calculateConfidence (layout_details response) |}.

(** ** lib/services/glmParser.ts *)

Module GlmParserService.

(** The match of [/\{[\s\S]*\}/]: from the first opening brace to the
    last closing brace after it. *)
Fixpoint through_last_close (s : string) : option string :=
  match s with
  | EmptyString => None
  | String c rest =>
      match through_last_close rest with
      | Some t => Some (String c t)
      | None => if Ascii.eqb c "}"%char then Some (String c EmptyString) else None
      end
  end.

Fixpoint match_braces (s : string) : option string :=
  match s with
  | EmptyString => None
  | String c rest =>
      if Ascii.eqb c "{"%char
      then match through_last_close rest with
           | Some t => Some (String c t)
           | None => None
           end
      else match_braces rest
  end.

Definition parseJsonResponse (co : Collaborators) (response : string) : M World JValue :=
  match JSON_parse co response with
  | Some v => ret v
  | None =>
      match match_braces response with
      | Some jsonMatch =>
          match JSON_parse co jsonMatch with
          | Some v => ret v
          | None => throw "无法解析 API 响应中的 JSON"
          end
      | None => throw "无法解析 API 响应中的 JSON"
      end
  end.

(** [chat]: one user message; the call is recorded under the service
    method that makes it. *)
Definition chat (co : Collaborators) (made_by : RemoteCall) (prompt : string) : M World string :=
  call made_by ;;; perform (chat_api co prompt).

Record Detection : Type := mkDetection {
  det_type : DocumentType;
  det_confidence : Z;
  det_reason : string;
}.

(** A property of the reply read at its declared type; anything else
    reads as [undefined]. *)
Definition prop_string (k : string) (v : JValue) : option string :=
  match jget k v with
  | Some (JStr s) => Some s
  | _ => None
  end.

Definition prop_number (k : string) (v : JValue) : option Z :=
  match jget k v with
  | Some (JNum n) => Some n
  | _ => None
  end.

Definition detectDocumentType (co : Collaborators) (ocrResult : string) : M World Detection :=
  let prompt := prompt_detect co ocrResult in
  response <- chat co (ClassifyCall ocrResult) prompt ;;
  result <- parseJsonResponse co response ;;
  match result with
  | JNull => throw "Cannot read properties of null (reading 'type')"
  | _ =>
      ret {| det_type := str_or (prop_string "type" result) "other";
             det_confidence := match prop_number "confidence" result with
                               | Some n => if (n =? 0)%Z then 50%Z else n
                               | None => 50%Z
                               end;
             det_reason := str_or (prop_string "reason" result) "" |}
  end.

(** [parseInvoice], [parseCertificate], [parseResume],
    [parseHandwritten], [parseFinancialReport] differ only in the
    prompt template. *)
Definition parseWith (co : Collaborators) (key : string) (ocrResult : string) : M World JValue :=
  response <- chat co (ExtractCall key ocrResult)
                (prompt_template co key +:+ nl +:+ nl +:+ "OCR原始结果：" +:+ nl +:+ ocrResult) ;;
  parseJsonResponse co response.

Definition parseInvoice co := parseWith co "invoice".
Definition parseCertificate co := parseWith co "certificate".
Definition parseResume co := parseWith co "resume".
Definition parseHandwritten co := parseWith co "handwritten".
Definition parseFinancialReport co := parseWith co "financial_report".

(** [switch (documentType) { case "invoice": ... default: return null }] *)
Definition parseByType (co : Collaborators) (ocrResult : string) (documentType : DocumentType)
  : M World JValue :=
  if String.eqb documentType "invoice" then parseInvoice co ocrResult
  else if String.eqb documentType "certificate" then parseCertificate co ocrResult
  else if String.eqb documentType "resume" then parseResume co ocrResult
  else if String.eqb documentType "handwritten" then parseHandwritten co ocrResult
  else if String.eqb documentType "financial_report" then parseFinancialReport co ocrResult
  else ret JNull.

End GlmParserService.

(** ** Handlers: shared pieces *)

(** [Document.findById] *)
Definition Document_findById (documentId : string) : M World (option Doc) :=
  gets (fun w => documents w !! documentId).

(** Run a handler body that holds the loaded [document]. *)
Definition with_document {A} (document : Doc) (body : M Frame A) : M World A :=
  fun w => let (r, fr) := body {| this := document; world := w |} in (r, world fr).

(** Read a field of the in-memory [document]. *)
Definition document_ {A} (f : Doc -> A) : M Frame A := gets (fun fr => f (this fr)).

(** [lib/mongodb] is not part of the model: the connection is up. *)
Definition connectToDatabase : M World unit := ret tt.

Record ProcessResult : Type := mkProcessResult {
  res_success : bool;
  res_message : option string;
  res_error : option string;
}.

Definition opt_num (n : option Z) : list (string * JValue) :=
  match n with
  | Some k => [("numPages", JNum k)]
  | None => []
  end.

(** The object literal passed to [updateOcrResult] by both pipelines. *)
Definition ocr_payload (o : OcrOutput) : OcrResult :=
  {| mdResults := out_mdResults o;
     layoutDetails := out_layoutDetails o;
     numPages := out_numPages o |}.

(** The object literal passed to [updateStatus] by the [catch] blocks. *)
Definition failure (msg : string) (st : ErrorStage) : option ErrorArg :=
  Some {| arg_message := Some msg; arg_code := None; arg_stage := Some st |}.

(** ** api/documents/process/route.ts: [processDocument] *)

Definition processDocument_body (co : Collaborators) (documentId : string)
    : M Frame ProcessResult :=
  fn <- document_ fileName ;;
  lift (AuditLog_log co documentId fn act_reparse (Some [("stage", JStr "started")])) ;;;
  (* step 1: OCR *)
  step1 <- try_catch
    (url <- document_ fileUrl ;;
     ocrResult <- lift (ocrFromUrl co url) ;;
     updateOcrResult (ocr_payload ocrResult) ;;;
     fn <- document_ fileName ;;
     lift (AuditLog_log co documentId fn act_reparse
             (Some (("stage", JStr "ocr_completed") :: opt_num (out_numPages ocrResult)))) ;;;
     ret (inr ocrResult))
    (fun error =>
     updateStatus failed (failure error stage_ocr) ;;;
     fn <- document_ fileName ;;
     lift (AuditLog_log co documentId fn act_reparse
             (Some [("stage", JStr "ocr_failed"); ("error", JStr error)])) ;;;
     ret (inl {| res_success := false; res_message := None;
                 res_error := Some ("OCR 失败: " +:+ error) |})) ;;
  match step1 with
  | inl result => ret result
  | inr ocrResult =>
      (* step 2: AI parse *)
      initialType <- document_ documentType ;;
      step2 <- try_catch
        (current <- document_ documentType ;;
         detectedType <-
           (if String.eqb current "other"
            then detection <- lift (GlmParserService.detectDocumentType co
                                      (out_mdResults ocrResult)) ;;
                 ret (GlmParserService.det_type detection)
            else ret initialType) ;;
         result <- lift (GlmParserService.parseByType co (out_mdResults ocrResult)
                           detectedType) ;;
         updateParsedData {[ detectedType := result ]} (Some detectedType) ;;;
         fn <- document_ fileName ;;
         lift (AuditLog_log co documentId fn act_reparse
                 (Some [("stage", JStr "ai_parse_completed");
                        ("documentType", JStr detectedType)])) ;;;
         ret (inr detectedType))
        (fun error =>
         updateStatus failed (failure error stage_ai_parse) ;;;
         fn <- document_ fileName ;;
         lift (AuditLog_log co documentId fn act_reparse
                 (Some [("stage", JStr "ai_parse_failed"); ("error", JStr error)])) ;;;
         ret (inl {| res_success := false; res_message := None;
                     res_error := Some ("AI 解析失败: " +:+ error) |})) ;;
      match step2 with
      | inl result => ret result
      | inr detectedType =>
          ret {| res_success := true;
                 res_message := Some ("处理成功，识别为: " +:+ detectedType);
                 res_error := None |}
      end
  end.

Definition processDocument (co : Collaborators) (documentId : string)
    : M World ProcessResult :=
  try_catch
    (connectToDatabase ;;;
     found <- Document_findById documentId ;;
     match found with
     | None => ret {| res_success := false; res_message := None;
                      res_error := Some "文档不存在" |}
     | Some document => with_document document (processDocument_body co documentId)
     end)
    (fun error =>
     ret {| res_success := false; res_message := None;
            res_error := Some (str_or (Some error) "处理失败") |}).

(** ** api/documents/upload/route.ts: [processDocumentAsync] *)

Definition processDocumentAsync_body (co : Collaborators) (documentId : string)
    : M Frame unit :=
  step1 <- try_catch
    (url <- document_ fileUrl ;;
     ocrResult <- lift (ocrFromUrl co url) ;;
     updateOcrResult (ocr_payload ocrResult) ;;;
     ret (Some ocrResult))
    (fun error =>
     updateStatus failed (failure error stage_ocr) ;;;
     fn <- document_ fileName ;;
     lift (AuditLog_log co documentId fn act_reparse
             (Some [("stage", JStr "ocr_failed"); ("error", JStr error)])) ;;;
     ret None) ;;
  match step1 with
  | None => ret tt
  | Some ocrResult =>
      try_catch
        (current <- document_ documentType ;;
         detectedType <-
           (if String.eqb current "other"
            then detection <- lift (GlmParserService.detectDocumentType co
                                      (out_mdResults ocrResult)) ;;
                 ret (GlmParserService.det_type detection)
            else document_ documentType) ;;
         result <- lift (GlmParserService.parseByType co (out_mdResults ocrResult)
                           detectedType) ;;
         updateParsedData {[ detectedType := result ]} (Some detectedType))
        (fun error =>
         updateStatus failed (failure error stage_ai_parse) ;;;
         fn <- document_ fileName ;;
         lift (AuditLog_log co documentId fn act_reparse
                 (Some [("stage", JStr "ai_parse_failed"); ("error", JStr error)])))
  end.

Definition processDocumentAsync (co : Collaborators) (documentId : string) : M World unit :=
  try_catch
    (found <- Document_findById documentId ;;
     match found with
     | None => ret tt
     | Some document => with_document document (processDocumentAsync_body co documentId)
     end)
    (fun _ => ret tt).

(** ** types/user.ts, lib/permission.ts *)

Inductive UserRole : Type := admin | operation | guest.

Record Permissions : Type := mkPermissions {
  canUpload : bool;
  canViewDocuments : bool;
  canDeleteDocuments : bool;
  canExportDocuments : bool;
  canReprocessDocuments : bool;
  canViewReports : bool;
  canManageUsers : bool;
  canManageSettings : bool;
}.

Definition ROLE_PERMISSIONS (r : UserRole) : Permissions :=
  match r with
  | admin => mkPermissions true true true true true true true true
  | operation => mkPermissions true true true true true true false false
  | guest => mkPermissions false true false false false true false false
  end.

Record Response : Type := mkResponse {
  http_status : Z;
  json : list (string * JValue);
}.

(** [requirePermission]; [user] is what [getUserFromRequest] found. *)
Definition requirePermission (user : option Permissions) (permissionKey : Permissions -> bool)
    : Response + Permissions :=
  match user with
  | None => inl {| http_status := 401; json := [("error", JStr "未登录，请先登录")] |}
  | Some permissions =>
      if permissionKey permissions then inr permissions
      else inl {| http_status := 403; json := [("error", JStr "无权限执行此操作")] |}
  end.

(** ** lib/env.ts *)

Record EnvConfig : Type := mkEnvConfig {
  maxFileSize : Z;
  allowedFileTypes : list string;
  uploadDir : string;
  baseUrl : string;
}.

(** The defaults of [env]. *)
Definition default_env : EnvConfig :=
  {| maxFileSize := 10485760;
     allowedFileTypes := ["image/png"; "image/jpeg"; "image/jpg"; "application/pdf"];
     uploadDir := "./public/uploads";
     baseUrl := "http://localhost:3000" |}.

(** ** lib/storage/fileStorage.ts: [saveFile] *)

Record UploadedFile : Type := mkUploadedFile {
  up_filename : string;
  up_originalName : string;
  up_mimetype : string;
  up_size : Z;
  up_url : string;
  up_path : string;
}.

Definition saveFile (env : EnvConfig) (co : Collaborators) (buffer : list Z)
    (originalName mimetype : string) : M World UploadedFile :=
  let filename := generate_filename co originalName in
  let filePath := uploadDir env +:+ "/" +:+ filename in
  modify (fun w => set_uploads (<[ filePath := buffer ]> (uploads w)) w) ;;;
  ret {| up_filename := filename; up_originalName := originalName;
         up_mimetype := mimetype; up_size := Z.of_nat (length buffer);
         up_url := baseUrl env +:+ "/uploads/" +:+ filename;
         up_path := filePath |}.

(** ** api/documents/upload/route.ts: [POST] *)

Record File : Type := mkFile {
  f_name : string;
  f_type : string;
  f_size : Z;
  f_bytes : list Z;
}.

Record UploadRequest : Type := mkUploadRequest {
  req_user : option Permissions;
  req_file : option File;
  req_documentType : option string;
}.

Definition validateFileType (env : EnvConfig) (mimeType : string) : bool :=
  existsb (String.eqb mimeType) (allowedFileTypes env).

Definition validateFileSize (env : EnvConfig) (size : Z) : bool :=
  (size <=? maxFileSize env)%Z.

Definition status_name (st : DocumentStatus) : string :=
  match st with
  | processing => "processing"
  | completed => "completed"
  | failed => "failed"
  end.

(** The [document] object of the 201 answer. *)
Definition document_json (document : Doc) : JValue :=
  JObj [("id", JStr (_id document));
        ("fileName", JStr (fileName document));
        ("fileUrl", JStr (fileUrl document));
        ("fileType", JStr (fileType document));
        ("documentType", JStr (documentType document));
        ("status", JStr (status_name (status document)));
        ("uploadDate", JNum (uploadDate document))].

(** [Document.create]: a new record in the collection.  ([filePath],
    which the handler also passes, is not a path of the schema.) *)
Definition Document_create (co : Collaborators) (mk : string -> Doc) : M World Doc :=
  fun w =>
    let document := mk (new_ObjectId co (documents w)) in
    (Returned document,
     set_saved (saved w ++ [document])
       (set_documents (<[ _id document := document ]> (documents w)) w)).

(** The handler's answer, and the id of the document whose processing it
    started without awaiting it ([processDocumentAsync(...).catch(...)]). *)
Definition upload_POST (env : EnvConfig) (co : Collaborators) (request : UploadRequest)
    : M World (Response * option string) :=
  match requirePermission (req_user request) canUpload with
  | inl permissionResult => ret (permissionResult, None)
  | inr _ =>
      try_catch
        (connectToDatabase ;;;
         match req_file request with
         | None =>
             ret ({| http_status := 400; json := [("error", JStr "未选择文件")] |}, None)
         | Some file =>
             if negb (validateFileType env (f_type file)) then
               ret ({| http_status := 400;
                       json := [("error", JStr "不支持的文件类型");
                                ("allowedTypes", JArr (map JStr (allowedFileTypes env)))] |},
                    None)
             else if negb (validateFileSize env (f_size file)) then
               ret ({| http_status := 400;
                       json := [("error", JStr "文件大小超出限制");
                                ("maxSize", JNum (maxFileSize env))] |},
                    None)
             else
               uploadedFile <- saveFile env co (f_bytes file) (f_name file) (f_type file) ;;
               now <- new_Date ;;
               document <- Document_create co (fun id =>
                 {| _id := id;
                    fileName := f_name file;
                    fileUrl := up_url uploadedFile;
                    fileType := f_type file;
                    documentType := str_or (req_documentType request) "other";
                    uploadDate := now;
                    status := processing;
                    ocrResult := None;
                    parsedData := None;
                    metadata := {| fileSize := f_size file; pageCount := None;
                                   confidence := None; ocrProcessedAt := None;
                                   aiParsedAt := None |};
                    error := None |}) ;;
               AuditLog_log co (_id document) (f_name file) act_upload
                 (Some [("fileSize", JNum (f_size file)); ("fileType", JStr (f_type file))]) ;;;
               ret ({| http_status := 201;
                       json := [("success", JBool true);
                                ("document", document_json document);
                                ("message", JStr "文件上传成功，正在处理...")] |},
                    Some (_id document))
         end)
        (fun error =>
         ret ({| http_status := 500;
                 json := [("error", JStr "文件上传失败"); ("message", JStr error)] |},
              None))
  end.

(** ** api/documents/[id]/route.ts: [PUT] *)

(** The request body: a key is absent ([None]), [null] ([Some None]) or
    holds a value. *)
Record EditBody : Type := mkEditBody {
  body_documentType : option string;
  body_parsedData : option (option (gmap string JValue));
}.

(** [{ $set: updates }] applied to the stored record; [document] is the
    copy the handler loaded before, [now] is [new Date()]. *)
Definition apply_updates (body : EditBody) (document : Doc) (now : Z) (stored : Doc) : Doc :=
  let d := match body_documentType body with
           | Some t => set_documentType t stored
           | None => stored
           end in
  match body_parsedData body with
  | None => d
  | Some None => set_parsedData None d
  | Some (Some pd) =>
      set_metadata (set_aiParsedAt now (metadata document))
        (set_status completed (set_parsedData (Some pd) d))
  end.

(** The [updates] object as logged (without the metadata copy). *)
Definition updates_json (body : EditBody) : JValue :=
  JObj (match body_documentType body with
        | Some t => [("documentType", JStr t)]
        | None => []
        end ++
        match body_parsedData body with
        | Some (Some pd) => [("parsedData", JObj (map_to_list pd));
                             ("status", JStr "completed")]
        | Some None => [("parsedData", JNull)]
        | None => []
        end).

Definition Document_findByIdAndUpdate (id : string) (f : Doc -> Doc) : M World (option Doc) :=
  fun w =>
    match documents w !! id with
    | None => (Returned None, w)
    | Some stored =>
        (Returned (Some (f stored)),
         set_saved (saved w ++ [f stored])
           (set_documents (<[ id := f stored ]> (documents w)) w))
    end.

Definition document_PUT (co : Collaborators) (user : option Permissions) (id : string)
    (body : EditBody) : M World Response :=
  match requirePermission user canViewDocuments with
  | inl permissionResult => ret permissionResult
  | inr _ =>
      try_catch
        (connectToDatabase ;;;
         found <- Document_findById id ;;
         match found with
         | None => ret {| http_status := 404; json := [("error", JStr "文档不存在")] |}
         | Some document =>
             now <- match body_parsedData body with
                    | Some (Some _) => new_Date
                    | _ => ret 0%Z
                    end ;;
             updatedDocument <- Document_findByIdAndUpdate id
                                  (apply_updates body document now) ;;
             AuditLog_log co id (fileName document) act_update
               (Some [("updates", updates_json body)]) ;;;
             match updatedDocument with
             | Some updated =>
                 ret {| http_status := 200;
                        json := [("success", JBool true);
                                 ("data",
                                  JObj [("id", JStr (_id updated));
                                        ("fileName", JStr (fileName updated));
                                        ("documentType", JStr (documentType updated));
                                        ("status", JStr (status_name (status updated)))])] |}
             | None => throw "Cannot read properties of null (reading '_id')"
             end
         end)
        (fun error =>
         ret {| http_status := 500;
                json := [("error", JStr "更新文档失败"); ("message", JStr error)] |})
  end.

(** ** Sequences of record operations *)

(** The operations that change a stored record: the three instance
    methods and the user edit of [PUT]. *)
Inductive Op : Type :=
| op_updateStatus (st : DocumentStatus) (err : option ErrorArg)
| op_updateOcrResult (o : OcrResult)
| op_updateParsedData (pd : gmap string JValue) (ty : option DocumentType)
| op_userEdit (body : EditBody).

Definition apply_op (op : Op) (now : Z) (d : Doc) : Doc :=
  match op with
  | op_updateStatus st err => updateStatus_assign st err d
  | op_updateOcrResult o => updateOcrResult_assign o now d
  | op_updateParsedData pd ty => updateParsedData_assign pd ty now d
  | op_userEdit body => apply_updates body d now d
  end.

Fixpoint apply_ops (ops : list Op) (now : Z) (d : Doc) : Doc :=
  match ops with
  | [] => d
  | op :: rest => apply_ops rest (now + 1)%Z (apply_op op now d)
  end.

(** ** Predicates of the specification *)

(** [error] is present exactly when [status] is [failed]. *)
Definition error_iff_failed (d : Doc) : Prop :=
  is_Some (error d) <-> status d = failed.



(** The five types [parseByType] has a case for. *)
Definition known_types : list string :=
  ["invoice"; "certificate"; "resume"; "handwritten"; "financial_report"].

Definition is_known (ty : string) : bool := existsb (String.eqb ty) known_types.

(** The part of the world the pipeline's document updates and outbound
    calls make up. *)
Definition document_state (w : World) : gmap string Doc * list Doc * list RemoteCall :=
  (documents w, saved w, remote w).

(** What a handler answered, if it did not throw. *)
Definition answered {A} (r : Outcome A * World) : option A :=
  match r.1 with
  | Returned a => Some a
  | Thrown _ => None
  end.

(** The outbound calls of [parseByType]. *)
Definition extract_calls (ty text : string) : list RemoteCall :=
  if is_known ty then [ExtractCall ty text] else [].

(** The [stage] detail of an audit entry. *)
Definition audit_stage (e : AuditEntry) : option string :=
  match au_details e with
  | Some fields => match assoc_get "stage" fields with
                   | Some (JStr s) => Some s
                   | _ => None
                   end
  | None => None
  end.


(** The [error] object a [catch] block of the pipeline stores. *)
Definition pipeline_error (msg : string) (st : ErrorStage) : ErrorInfo :=
  {| message := str_or (Some msg) "Unknown error"; code := None; stage := Some st |}.

(** The entries [processDocument] writes inside its [try] blocks, outside
    any [catch] handler. *)
Definition written_in_try (e : AuditEntry) : bool :=
  match audit_stage e with
  | Some s => existsb (String.eqb s) ["started"; "ocr_completed"; "ai_parse_completed"]
  | None => false
  end.

Definition with_audit (a : AuditEntry -> option string) (co : Collaborators) : Collaborators :=
  {| ocr_api := ocr_api co; chat_api := chat_api co; JSON_parse := JSON_parse co;
     prompt_detect := prompt_detect co; prompt_template := prompt_template co;
     audit_create := a;
     generate_filename := generate_filename co; new_ObjectId := new_ObjectId co |}.

(** What each collaborator answers, read off a run from the empty world
    (the answers do not depend on the world, see the [_run] lemmas). *)
Definition empty_world : World :=
  {| documents := ∅; auditLogs := []; uploads := ∅; clock := 0;
     saved := []; remote := [] |}.

Definition ocr_answer (co : Collaborators) (fileUrl : string) : Outcome OcrOutput :=
  (ocrFromUrl co fileUrl empty_world).1.

Definition classification_answer (co : Collaborators) (text : string)
    : Outcome GlmParserService.Detection :=
  (GlmParserService.detectDocumentType co text empty_world).1.

Definition extraction_answer (co : Collaborators) (text : string) (ty : DocumentType)
    : Outcome JValue :=
  (GlmParserService.parseByType co text ty empty_world).1.

(** ** Sample data *)

Module Sample.

Definition item : LayoutDetail :=
  {| index := 0; label := "text"; bbox_2d := [0; 0; 100; 20]%Z;
     content := "Invoice No: 123, Amount: 500"; height := 20; width := 100;
     page := None |}.

Definition response : GlmOcrResponse :=
  {| md_results := "Invoice No: 123, Amount: 500";
     layout_details := [[item]];
     num_pages := Some 1%Z |}.

Definition invoice_fields : JValue :=
  JObj [("invoiceNo", JStr "123"); ("amount", JNum 500)].

(** Collaborators: the OCR outcome, the outcome of an extraction chat
    and the audit store are given; classification answers [invoice]. *)
Definition collaborators (ocr : Outcome GlmOcrResponse) (extract : Outcome string)
    (audit : AuditEntry -> option string) : Collaborators :=
  {| ocr_api := fun _ => ocr;
     chat_api := fun prompt =>
       if String.prefix "classify:" prompt then Returned "classified" else extract;
     JSON_parse := fun s =>
       if String.eqb s "classified"
       then Some (JObj [("type", JStr "invoice"); ("confidence", JNum 90)])
       else if String.eqb s "extracted" then Some invoice_fields
       else None;
     prompt_detect := fun text => "classify:" +:+ text;
     prompt_template := fun key => "extract " +:+ key;
     audit_create := audit;
     generate_filename := fun name => "stored-" +:+ name;
     new_ObjectId := fun _ => "doc1" |}.

Definition all_ok : Collaborators :=
  collaborators (Returned response) (Returned "extracted") (fun _ => None).

Definition ocr_down : Collaborators :=
  collaborators (Thrown "timeout of 120000ms exceeded") (Returned "extracted")
                (fun _ => None).


(** The audit store rejects the entry of one stage / the entries written
    inside the handlers. *)
Definition audit_down_at (stage : string) : Collaborators :=
  collaborators (Returned response) (Returned "extracted")
    (fun e => match audit_stage e with
              | Some s => if String.eqb s stage then Some "audit store unavailable" else None
              | None => None
              end).

Definition reject_in_handlers (e : AuditEntry) : option string :=
  if written_in_try e then None else Some "audit store unavailable".

(** A record as [POST /api/documents/upload] creates it. *)
Definition fresh (ty : DocumentType) : Doc :=
  {| _id := "doc1"; fileName := "scan.pdf";
     fileUrl := "http://localhost:3000/uploads/stored-scan.pdf";
     fileType := "application/pdf"; documentType := ty; uploadDate := 0;
     status := processing; ocrResult := None; parsedData := None;
     metadata := {| fileSize := 2048; pageCount := None; confidence := None;
                    ocrProcessedAt := None; aiParsedAt := None |};
     error := None |}.

Definition world_with (d : Doc) : World :=
  {| documents := {[ _id d := d ]}; auditLogs := []; uploads := ∅; clock := 1;
     saved := []; remote := [] |}.

Definition pdf : File :=
  {| f_name := "scan.pdf"; f_type := "application/pdf"; f_size := 3;
     f_bytes := [37; 80; 68]%Z |}.

Definition gif : File :=
  {| f_name := "anim.gif"; f_type := "image/gif"; f_size := 3;
     f_bytes := [71; 73; 70]%Z |}.

Definition oversized : File :=
  {| f_name := "scan.png"; f_type := "image/png"; f_size := 20971520;
     f_bytes := [137; 80; 78; 71]%Z |}.

Definition upload (user : option Permissions) (file : File) : UploadRequest :=
  {| req_user := user; req_file := Some file; req_documentType := None |}.

(** The stored record [doc1]; the world after the upload-time pipeline
    ran on a fresh record; the world after one more [process] request. *)
Definition record (w : World) : option Doc := documents w !! "doc1".

Definition uploaded (co : Collaborators) (ty : DocumentType) : World :=
  (processDocumentAsync co "doc1" (world_with (fresh ty))).2.

Definition reprocessed (co : Collaborators) (w : World) : World :=
  (processDocument co "doc1" w).2.

(** The world after a [PUT /api/documents/doc1] by [user]. *)
Definition edited (user : option Permissions) (body : EditBody) (w : World) : World :=
  (document_PUT all_ok user "doc1" body w).2.

Definition retype (ty : string) : EditBody :=
  {| body_documentType := Some ty; body_parsedData := None |}.

Definition supply (pd : gmap string JValue) : EditBody :=
  {| body_documentType := None; body_parsedData := Some (Some pd) |}.

(** The record an OCR timeout leaves behind. *)
Definition timed_out (ty : DocumentType) : Doc :=
  set_error (Some (pipeline_error "timeout of 120000ms exceeded" stage_ocr))
    (set_status failed (fresh ty)).

End Sample.

(** * Further functions of the same files *)

(** ** lib/services/glmOcr.ts: text helpers and the Base64 entry *)

(** [Array.prototype.join]. *)
Fixpoint join (sep : string) (parts : list string) : string :=
  match parts with
  | [] => ""
  | [x] => x
  | x :: rest => x +:+ sep +:+ join sep rest
  end.

(** [extractText]: [layoutDetails.flat().map(item => item.content).join("\n")] *)
Definition extractText (layoutDetails : list (list LayoutDetail)) : string :=
  join nl (map content (concat layoutDetails)).

(** The file reference [parseFromBase64] sends:
    [base64Data.startsWith("data:") ? base64Data : `data:image/png;base64,${base64Data}`] *)
Definition base64_file (base64Data : string) : string :=
  if String.prefix "data:" base64Data then base64Data
  else "data:image/png;base64," +:+ base64Data.

Definition parseFromBase64 (co : Collaborators) (base64Data : string)
    : M World GlmOcrResponse :=
  parseFromUrl co (base64_file base64Data).

Definition ocrFromBase64 (co : Collaborators) (base64Data : string) : M World OcrOutput :=
  response <- parseFromBase64 co base64Data ;;
  ret {| out_mdResults := md_results response;
         out_layoutDetails := GlmOcrService.normalizeLayoutDetails (layout_details response);
         out_numPages := num_pages response;
         out_confidence := GlmOcrService.calculateConfidence (layout_details response) |}.

(** A layout item as the OCR API returns it, before a page is attached. *)
Definition without_page (detail : LayoutDetail) : LayoutDetail :=
  {| index := index detail; label := label detail; bbox_2d := bbox_2d detail;
     content := content detail; height := height detail; width := width detail;
     page := None |}.

(** ** lib/services/glmParser.ts: [smartParse] *)

Record SmartParsed : Type := mkSmartParsed {
  sp_documentType : DocumentType;
  sp_parsedData : gmap string JValue;
}.

(** [{ [type]: data, detectedType: type }]: the later key wins. *)
Definition smartParse (co : Collaborators) (ocrResult : string) : M World SmartParsed :=
  detection <- GlmParserService.detectDocumentType co ocrResult ;;
  let type := GlmParserService.det_type detection in
  data <- GlmParserService.parseByType co ocrResult type ;;
  ret {| sp_documentType := type;
         sp_parsedData := <[ "detectedType" := JStr type ]> {[ type := data ]} |}.

(** ** lib/env.ts: reading the environment *)

(** [getEnvVar]; [process_env] is [process.env]. *)
Definition getEnvVar (process_env : gmap string string) (key : string)
    (defaultValue : option string) : Outcome string :=
  let value := process_env !! key in
  match value, defaultValue with
  | None, None => Thrown ("Missing required environment variable: " +:+ key)
  | _, _ => Returned (str_or value (str_or defaultValue ""))
  end.

(** [value.split(",")] *)
Fixpoint split_comma (value : string) : list string :=
  match value with
  | EmptyString => [""]
  | String c rest =>
      if Ascii.eqb c ","%char then "" :: split_comma rest
      else match split_comma rest with
           | first :: others => String c first :: others
           | [] => [String c EmptyString]
           end
  end.

(** [parseStringArray]; [trim] is [String.prototype.trim]. *)
Definition parseStringArray (trim : string -> string) (value : string) : list string :=
  map trim (split_comma value).

(** [parseNumber]; [parseInt] is [parseInt(_, 10)], [None] for [NaN]. *)
Definition parseNumber (parseInt : string -> option Z) (value : string) (defaultValue : Z) : Z :=
  match parseInt value with
  | Some parsed => parsed
  | None => defaultValue
  end.

(** The upload limits of [env], as [POST /api/documents/upload] reads
    them. *)
Definition env_maxFileSize (parseInt : string -> option Z) (process_env : gmap string string)
    : Outcome Z :=
  match getEnvVar process_env "MAX_FILE_SIZE" (Some "10485760") with
  | Returned value => Returned (parseNumber parseInt value 10485760)
  | Thrown msg => Thrown msg
  end.

Definition env_allowedFileTypes (trim : string -> string) (process_env : gmap string string)
    : Outcome (list string) :=
  match getEnvVar process_env "ALLOWED_FILE_TYPES"
          (Some "image/png,image/jpeg,image/jpg,application/pdf") with
  | Returned value => Returned (parseStringArray trim value)
  | Thrown msg => Thrown msg
  end.

(** [validateEnv], on the key it checks. *)
Definition validateEnv (glmApiKey : string) : bool * list string :=
  let errors :=
    if String.eqb glmApiKey "" || String.eqb glmApiKey "your_glm_api_key_here"
    then ["GLM_API_KEY is required. Please set a valid API key."]
    else [] in
  ((length errors =? 0)%nat, errors).

(** ** api/documents/process/route.ts: [POST] and [GET] *)

(** The body of [POST /api/documents/process]: what [request.json()]
    gives for [documentId] (absent is [None]), or the error it throws. *)
Record ProcessRequest : Type := mkProcessRequest {
  preq_user : option Permissions;
  preq_documentId : Outcome (option string);
}.

(** The answer, and the id whose [processDocument] run was started
    without awaiting it. *)
Definition process_POST (request : ProcessRequest) : M World (Response * option string) :=
  match requirePermission (preq_user request) canReprocessDocuments with
  | inl permissionResult => ret (permissionResult, None)
  | inr _ =>
      try_catch
        (documentId <- perform (preq_documentId request) ;;
         if negb (String.eqb (str_or documentId "") "") then
           ret ({| http_status := 200;
                   json := [("success", JBool true);
                            ("message", JStr "文档处理已开始");
                            ("documentId", JStr (str_or documentId ""))] |},
                Some (str_or documentId ""))
         else
           ret ({| http_status := 400; json := [("error", JStr "缺少文档 ID")] |}, None))
        (fun error =>
         ret ({| http_status := 500;
                 json := [("error", JStr "处理失败"); ("message", JStr error)] |},
              None))
  end.





(** ** api/documents/[id]/route.ts: [GET] and [DELETE] *)

(** The answer and, in the 200 case, the record its [data] object
    spells out field by field. *)
Definition document_GET (co : Collaborators) (user : option Permissions) (id : string)
    : M World (Response * option Doc) :=
  match requirePermission user canViewDocuments with
  | inl permissionResult => ret (permissionResult, None)
  | inr _ =>
      try_catch
        (connectToDatabase ;;;
         found <- Document_findById id ;;
         match found with
         | None =>
             ret ({| http_status := 404; json := [("error", JStr "文档不存在")] |}, None)
         | Some document =>
             AuditLog_log co id (fileName document) act_view None ;;;
             ret ({| http_status := 200; json := [("success", JBool true)] |},
                  Some document)
         end)
        (fun error =>
         ret ({| http_status := 500;
                 json := [("error", JStr "获取文档详情失败"); ("message", JStr error)] |},
              None))
  end.

(** [Document.findByIdAndDelete] *)
Definition Document_findByIdAndDelete (id : string) : M World unit :=
  modify (fun w => set_documents (delete id (documents w)) w).

(** The stored file is not removed (the source leaves that as a TODO). *)
Definition document_DELETE (co : Collaborators) (user : option Permissions) (id : string)
    : M World Response :=
  match requirePermission user canDeleteDocuments with
  | inl permissionResult => ret permissionResult
  | inr _ =>
      try_catch
        (connectToDatabase ;;;
         found <- Document_findById id ;;
         match found with
         | None => ret {| http_status := 404; json := [("error", JStr "文档不存在")] |}
         | Some document =>
             Document_findByIdAndDelete id ;;;
             AuditLog_log co id (fileName document) act_delete
               (Some [("fileName", JStr (fileName document));
                      ("documentType", JStr (documentType document))]) ;;;
             ret {| http_status := 200;
                    json := [("success", JBool true); ("message", JStr "文档已删除")] |}
         end)
        (fun error =>
         ret {| http_status := 500;
                json := [("error", JStr "删除文档失败"); ("message", JStr error)] |})
  end.

(** ** models/Document.ts: the counting statics *)

(** [$group: { _id: "$field", count: { $sum: 1 } }] over a list of keys:
    one group per key that occurs, with the number of its occurrences. *)
Fixpoint group_count (keys : list string) : gmap string nat :=
  match keys with
  | [] => ∅
  | k :: rest =>
      let groups := group_count rest in
      <[ k := S (default 0 (groups !! k)) ]> groups
  end.

Definition all_documents (w : World) : list Doc := (map_to_list (documents w)).*2.

Definition getCountByType (w : World) : gmap string nat :=
  group_count (documentType <$> all_documents w).

Definition getCountByStatus (w : World) : gmap string nat :=
  group_count ((fun d => status_name (status d)) <$> all_documents w).

(** The number of records with a given property. *)
Definition count_where (P : Doc -> bool) (w : World) : nat :=
  length (filter (fun d => P d = true) (all_documents w)).

(** Does the character occur in the string? *)
Fixpoint occurs (c : ascii) (s : string) : bool :=
  match s with
  | EmptyString => false
  | String c' rest => Ascii.eqb c' c || occurs c rest
  end.

(** Collaborators whose chat model wraps its JSON in prose: the reply to
    any prompt is a sentence around one object, and [JSON.parse] reads
    the bare object only. *)
Definition chatty : Collaborators :=
  {| ocr_api := ocr_api Sample.all_ok;
     chat_api := fun _ => Returned "Here you go: {type:invoice} Anything else?";
     JSON_parse := fun s =>
       if String.eqb s "{type:invoice}" then Some (JObj [("type", JStr "invoice")])
       else None;
     prompt_detect := prompt_detect Sample.all_ok;
     prompt_template := prompt_template Sample.all_ok;
     audit_create := audit_create Sample.all_ok;
     generate_filename := generate_filename Sample.all_ok;
     new_ObjectId := new_ObjectId Sample.all_ok |}.

(** The fields no method and no edit assigns. *)
Definition same_file (d d' : Doc) : Prop :=
  _id d' = _id d /\ fileName d' = fileName d /\ fileUrl d' = fileUrl d /\
  fileType d' = fileType d /\ uploadDate d' = uploadDate d /\
  fileSize (metadata d') = fileSize (metadata d).

(** The three kinds of outbound call. *)
Definition call_kind (c : RemoteCall) : nat :=
  match c with
  | OcrCall _ => 0
  | ClassifyCall _ => 1
  | ExtractCall _ _ => 2
  end.

(** The answer of [processDocument] for an id that is not stored. *)
Definition not_found_result : ProcessResult :=
  {| res_success := false; res_message := None; res_error := Some "文档不存在" |}.

(** * Properties *)

(** ** [calculateConfidence] *)

Section Confidence.

Import GlmOcrService.

Lemma fold_length_acc (items : list LayoutDetail) (acc : Z) :
  fold_left (fun sum item => (sum + Z.of_nat (String.length (content item)))%Z) items acc
  = (acc + totalContentLength items)%Z.
Proof.
  unfold totalContentLength.
  revert acc. induction items as [| item items IH]; intros acc; simpl.
  - lia.
  - rewrite (IH (acc + _)%Z), (IH (0 + _)%Z). lia.
Qed.

Lemma totalContentLength_cons (item : LayoutDetail) (items : list LayoutDetail) :
  totalContentLength (item :: items)
  = (Z.of_nat (String.length (content item)) + totalContentLength items)%Z.
Proof. unfold totalContentLength at 1. simpl. apply fold_length_acc. Qed.

Lemma totalContentLength_nonneg (items : list LayoutDetail) :
  (0 <= totalContentLength items)%Z.
Proof.
  induction items as [| item items IH].
  - reflexivity.
  - rewrite totalContentLength_cons. lia.
Qed.

(** The score before the cap, as a function of the total length. *)
Lemma score_le (a b : Z) :
  (a <= b)%Z -> (inject_Z a / 10 * 2 <= inject_Z b / 10 * 2)%Q.
Proof.
  intros Hab. unfold Qle, Qdiv, Qmult, Qinv, inject_Z. simpl. lia.
Qed.

Lemma score_zero : (inject_Z 0 / 10 * 2 == 0)%Q.
Proof. reflexivity. Qed.

Lemma calculateConfidence_nonempty (layoutDetails : list (list LayoutDetail)) :
  concat layoutDetails <> [] ->
  calculateConfidence layoutDetails
  = Qmin 100 (inject_Z (totalContentLength (concat layoutDetails)) / 10 * 2)%Q.
Proof.
  intros Hne. unfold calculateConfidence.
  destruct (concat layoutDetails) as [| x xs]; [congruence | reflexivity].
Qed.

Lemma calculateConfidence_empty (layoutDetails : list (list LayoutDetail)) :
  concat layoutDetails = [] -> calculateConfidence layoutDetails = 0%Q.
Proof. intros He. unfold calculateConfidence. rewrite He. reflexivity. Qed.

Lemma calculateConfidence_bounds (layoutDetails : list (list LayoutDetail)) :
  (0 <= calculateConfidence layoutDetails)%Q /\ (calculateConfidence layoutDetails <= 100)%Q.
Proof.
  destruct (decide (concat layoutDetails = [])) as [He | Hne].
  - rewrite (calculateConfidence_empty _ He). split; [apply Qle_refl | easy].
  - rewrite (calculateConfidence_nonempty _ Hne). split.
    + apply Q.min_glb; [easy |].
      rewrite <- score_zero. apply score_le, totalContentLength_nonneg.
    + apply Q.le_min_l.
Qed.

Lemma calculateConfidence_monotone (l1 l2 : list (list LayoutDetail)) :
  (totalContentLength (concat l1) <= totalContentLength (concat l2))%Z ->
  (calculateConfidence l1 <= calculateConfidence l2)%Q.
Proof.
  intros Hle.
  destruct (decide (concat l1 = [])) as [He1 | Hne1].
  - rewrite (calculateConfidence_empty _ He1). apply calculateConfidence_bounds.
  - rewrite (calculateConfidence_nonempty _ Hne1).
    destruct (decide (concat l2 = [])) as [He2 | Hne2].
    + rewrite (calculateConfidence_empty _ He2).
      rewrite He2 in Hle. change (totalContentLength []) with 0%Z in Hle.
      pose proof (totalContentLength_nonneg (concat l1)) as H0.
      replace (totalContentLength (concat l1)) with 0%Z by lia.
      eapply Qle_trans; [apply Q.le_min_r | rewrite score_zero; apply Qle_refl].
    + rewrite (calculateConfidence_nonempty _ Hne2).
      apply Q.min_le_compat_l, score_le, Hle.
Qed.

End Confidence.

(** C10. For every list of pages of layout items, [calculateConfidence]
    returns a value between 0 and 100 inclusive; it returns exactly 0 when
    there are no layout items; and it is monotonically non-decreasing in
    the total content length of the items. *)
Theorem C10_calculateConfidence_range_zero_monotone :
  (forall layoutDetails,
     (0 <= GlmOcrService.calculateConfidence layoutDetails)%Q /\
     (GlmOcrService.calculateConfidence layoutDetails <= 100)%Q) /\
  (forall layoutDetails,
     concat layoutDetails = [] ->
     GlmOcrService.calculateConfidence layoutDetails = 0%Q) /\
  (forall l1 l2,
     (GlmOcrService.totalContentLength (concat l1)
      <= GlmOcrService.totalContentLength (concat l2))%Z ->
     (GlmOcrService.calculateConfidence l1 <= GlmOcrService.calculateConfidence l2)%Q).
Proof.
  split; [| split].
  - apply calculateConfidence_bounds.
  - apply calculateConfidence_empty.
  - apply calculateConfidence_monotone.
Qed.

Lemma C10_witness :
  GlmOcrService.calculateConfidence [[]; []] = 0%Q /\
  (GlmOcrService.calculateConfidence [[Sample.item]]
   <= GlmOcrService.calculateConfidence [[Sample.item]; [Sample.item]])%Q.
Proof.
  split.
  - apply (proj1 (proj2 C10_calculateConfidence_range_zero_monotone)). reflexivity.
  - apply (proj2 (proj2 C10_calculateConfidence_range_zero_monotone)).
    vm_compute. discriminate.
Defined.

(** ** The services: what a call returns and what it records *)

Section Services.

Import GlmParserService.

Context (co : Collaborators).

Lemma is_known_spec (ty : string) : is_known ty = true <-> ty ∈ known_types.
Proof.
  unfold is_known. rewrite existsb_exists. split.
  - intros (x & Hin & Heq). apply String.eqb_eq in Heq. subst x.
    by apply list_elem_of_In.
  - intros Hin. exists ty. split; [by apply list_elem_of_In | apply String.eqb_refl].
Qed.

Lemma ocrFromUrl_run (fileUrl : string) (w : World) :
  ocrFromUrl co fileUrl w
  = (ocr_answer co fileUrl, set_remote (remote w ++ [OcrCall fileUrl]) w).
Proof.
  unfold ocr_answer, ocrFromUrl, parseFromUrl, bind, call, modify, perform, ret.
  destruct (ocr_api co fileUrl); reflexivity.
Qed.



Lemma parseJsonResponse_run (response : string) (w : World) :
  parseJsonResponse co response w = ((parseJsonResponse co response empty_world).1, w).
Proof.
  unfold parseJsonResponse, ret, throw.
  repeat case_match; reflexivity.
Qed.

Lemma detectDocumentType_run (text : string) (w : World) :
  detectDocumentType co text w
  = (classification_answer co text, set_remote (remote w ++ [ClassifyCall text]) w).
Proof.
  unfold classification_answer, detectDocumentType, chat, bind, call, modify, perform.
  destruct (chat_api co (prompt_detect co text)) as [reply | msg]; [| reflexivity].
  rewrite (parseJsonResponse_run reply (set_remote _ w)).
  rewrite (parseJsonResponse_run reply (set_remote _ empty_world)).
  simpl. destruct ((parseJsonResponse co reply empty_world).1) as [[] |]; reflexivity.
Qed.

Lemma parseWith_run (key text : string) (w : World) :
  parseWith co key text w
  = ((parseWith co key text empty_world).1,
     set_remote (remote w ++ [ExtractCall key text]) w).
Proof.
  unfold parseWith, chat, bind, call, modify, perform.
  destruct (chat_api co _) as [reply | msg]; [| reflexivity].
  rewrite (parseJsonResponse_run reply (set_remote _ w)).
  rewrite (parseJsonResponse_run reply (set_remote _ empty_world)).
  simpl. destruct ((parseJsonResponse co reply empty_world).1); reflexivity.
Qed.

Lemma parseByType_unknown (text ty : string) (w : World) :
  is_known ty = false -> parseByType co text ty w = (Returned JNull, w).
Proof.
  unfold is_known, known_types, parseByType. simpl. intros H.
  repeat (apply orb_false_elim in H; destruct H as [-> H]).
  reflexivity.
Qed.

Lemma parseByType_known (text ty : string) (w : World) :
  is_known ty = true ->
  parseByType co text ty w
  = (extraction_answer co text ty, set_remote (remote w ++ [ExtractCall ty text]) w).
Proof.
  intros Hk. apply is_known_spec in Hk. unfold known_types in Hk.
  repeat (apply elem_of_cons in Hk; destruct Hk as [-> | Hk]);
    try (unfold extraction_answer, parseByType; simpl; apply parseWith_run).
  by apply elem_of_nil in Hk.
Qed.

Lemma set_remote_same (w : World) : set_remote (remote w ++ []) w = w.
Proof. destruct w. unfold set_remote. simpl. by rewrite app_nil_r. Qed.

Lemma parseByType_run (text ty : string) (w : World) :
  parseByType co text ty w
  = (extraction_answer co text ty, set_remote (remote w ++ extract_calls ty text) w).
Proof.
  unfold extract_calls. destruct (is_known ty) eqn:Hk.
  - by apply parseByType_known.
  - unfold extraction_answer. by rewrite !parseByType_unknown, set_remote_same.
Qed.

End Services.

(** C9. For every OCR text, [parseByType] invoked with a document type
    outside the five known types ([other] included) returns [null] and
    makes no remote call: the world, with its record of outbound calls, is
    unchanged. *)
Theorem C9_parseByType_unknown_type_returns_null
    (co : Collaborators) (ocrText : string) (documentType : DocumentType) (w : World) :
  documentType ∉ known_types ->
  GlmParserService.parseByType co ocrText documentType w = (Returned JNull, w).
Proof.
  intros Hnot. apply parseByType_unknown.
  destruct (is_known documentType) eqn:Hk; [| reflexivity].
  by apply is_known_spec in Hk.
Qed.

Lemma C9_witness :
  ("other" ∉ known_types) /\
  GlmParserService.parseByType Sample.all_ok "Invoice No: 123" "other" empty_world
  = (Returned JNull, empty_world).
Proof.
  assert (H : "other" ∉ known_types).
  { intros Hin. apply is_known_spec in Hin. vm_compute in Hin. discriminate. }
  split; [exact H |].
  apply (C9_parseByType_unknown_type_returns_null Sample.all_ok _ "other" empty_world H).
Defined.

(** ** Running the pipelines *)

Ltac unfold_monad :=
  unfold processDocument, processDocument_body, processDocumentAsync,
    processDocumentAsync_body, with_document, Document_findById, connectToDatabase,
    updateStatus, updateOcrResult, updateParsedData, save, on_this, lift,
    document_, AuditLog_log, new_Date, try_catch, bind, ret, throw, gets, modify, perform.

Ltac msimpl :=
  cbn -[ocrFromUrl GlmParserService.detectDocumentType GlmParserService.parseByType
        updateStatus_assign updateOcrResult_assign updateParsedData_assign
        is_known extract_calls opt_num].

(** One step of a symbolic run: replace a service call by its answer and
    its record, or split on an answer the run branches on. *)
Ltac pipeline_step :=
  first
  [ rewrite ocrFromUrl_run
  | rewrite detectDocumentType_run
  | rewrite parseByType_run
  | match goal with
    | |- context [match audit_create ?co ?e with _ => _ end] =>
        destruct (audit_create co e) eqn:?
    | |- context [match ocr_answer ?co ?u with _ => _ end] =>
        destruct (ocr_answer co u) eqn:?
    | |- context [match classification_answer ?co ?t with _ => _ end] =>
        destruct (classification_answer co t) eqn:?
    | |- context [match extraction_answer ?co ?t ?ty with _ => _ end] =>
        destruct (extraction_answer co t ty) eqn:?
    | |- context [if String.eqb ?a ?b then _ else _] =>
        destruct (String.eqb a b) eqn:?
    end ]; msimpl.


(** The two scenarios of the specification, run on the model. *)
Example scenario_other_classified_as_invoice :
  exists d' pd,
    Sample.record (Sample.uploaded Sample.all_ok "other") = Some d' /\
    documentType d' = "invoice" /\ status d' = completed /\
    parsedData d' = Some pd /\
    (pd !! "invoice" ≫= jget "amount") = Some (JNum 500).
Proof.
  eexists _, _. split; [vm_compute; reflexivity |].
  by repeat split.
Qed.

Example scenario_ocr_timeout :
  exists d',
    Sample.record (Sample.uploaded Sample.ocr_down "other") = Some d' /\
    status d' = failed /\ (stage <$> error d') = Some (Some stage_ocr) /\
    parsedData d' = None.
Proof. eexists. split; [vm_compute; reflexivity |]. by repeat split. Qed.

(** An allowed file sent by a user who may upload is stored, recorded
    with status [processing], logged, and handed to the pipeline. *)
Example upload_accepts_pdf :
  let r := upload_POST default_env Sample.all_ok
             (Sample.upload (Some (ROLE_PERMISSIONS admin)) Sample.pdf) empty_world in
  (http_status ∘ fst <$> answered r) = Some 201%Z /\
  (snd <$> answered r) = Some (Some "doc1") /\
  (status <$> documents r.2 !! "doc1") = Some processing /\
  uploads r.2 !! "./public/uploads/stored-scan.pdf" = Some [37; 80; 68]%Z /\
  length (auditLogs r.2) = 1.
Proof. vm_compute. repeat split. Qed.

(** The methods never touch the identity or the file fields. *)
Lemma updateStatus_assign_id st err d : _id (updateStatus_assign st err d) = _id d.
Proof. unfold updateStatus_assign. destruct err, st; reflexivity. Qed.

Lemma updateOcrResult_assign_id o now d : _id (updateOcrResult_assign o now d) = _id d.
Proof. unfold updateOcrResult_assign. destruct (truthy_num _); reflexivity. Qed.

Lemma updateParsedData_assign_id pd ty now d :
  _id (updateParsedData_assign pd ty now d) = _id d.
Proof.
  unfold updateParsedData_assign. destruct ty as [t |]; [destruct (String.eqb t "") |];
    reflexivity.
Qed.






(** ** What the three methods and the user edit do to the invariants *)

Lemma updateParsedData_assign_status pd ty now d :
  status (updateParsedData_assign pd ty now d) = completed.
Proof. reflexivity. Qed.

Lemma updateParsedData_assign_error pd ty now d :
  error (updateParsedData_assign pd ty now d) = error d.
Proof.
  unfold updateParsedData_assign. destruct ty as [t |]; [destruct (String.eqb t "") |];
    reflexivity.
Qed.




Lemma updateOcrResult_assign_documentType o now d :
  documentType (updateOcrResult_assign o now d) = documentType d.
Proof. unfold updateOcrResult_assign. destruct (truthy_num _); reflexivity. Qed.

Lemma updateOcrResult_assign_status o now d :
  status (updateOcrResult_assign o now d) = status d.
Proof. unfold updateOcrResult_assign. destruct (truthy_num _); reflexivity. Qed.

Lemma updateStatus_assign_status st err d : status (updateStatus_assign st err d) = st.
Proof. unfold updateStatus_assign. destruct err, st; reflexivity. Qed.

(** [result.type || "other"] is never the empty string. *)
Lemma str_or_nonempty (x : option string) (fallback : string) :
  fallback <> "" -> str_or x fallback <> "".
Proof.
  intros Hf. unfold str_or. destruct x as [s |]; [| exact Hf].
  destruct (String.eqb_spec s ""); [exact Hf | assumption].
Qed.

Lemma classification_answer_nonempty co text det :
  classification_answer co text = Returned det -> GlmParserService.det_type det <> "".
Proof.
  unfold classification_answer, GlmParserService.detectDocumentType,
    GlmParserService.chat, bind, call, modify, perform.
  destruct (chat_api co _) as [reply | msg]; [| discriminate].
  rewrite parseJsonResponse_run. simpl.
  destruct ((GlmParserService.parseJsonResponse co reply empty_world).1) as [[] |];
    try (simpl; discriminate);
    unfold ret; cbn [fst]; intros [= <-];
    cbn [GlmParserService.det_type]; first [by apply str_or_nonempty | done].
Qed.


(** C1 (the code departs from the claim).  A record left [failed] by an
    invocation whose OCR call failed, and processed again with every call
    succeeding, ends [completed] with the [error] of the earlier failure
    still present: [updateParsedData] sets [status] and never clears
    [error], whatever its arguments and the record.  The same is seen on
    the bare sequence of methods the two invocations perform. *)
Theorem C1_completed_record_keeps_stale_error :
  (exists d',
     Sample.record
       (Sample.reprocessed Sample.all_ok (Sample.uploaded Sample.ocr_down "invoice"))
     = Some d' /\
     status d' = completed /\
     error d' = Some (pipeline_error "timeout of 120000ms exceeded" stage_ocr) /\
     ~ error_iff_failed d') /\
  (let d' := apply_ops
               [op_updateStatus failed (failure "timeout of 120000ms exceeded" stage_ocr);
                op_updateParsedData {[ "invoice" := Sample.invoice_fields ]}
                                    (Some "invoice")]
               1 (Sample.fresh "invoice") in
   status d' = completed /\ is_Some (error d') /\ ~ error_iff_failed d') /\
  (forall pd ty now d,
     status (updateParsedData_assign pd ty now d) = completed /\
     error (updateParsedData_assign pd ty now d) = error d).
Proof.
  split; [| split].
  - eexists. split; [vm_compute; reflexivity |].
    cbn. repeat split. intros [H _]. by specialize (H (mk_is_Some _ _ eq_refl)).
  - cbn. repeat split; [by eexists |]. intros [H _].
    by specialize (H (mk_is_Some _ _ eq_refl)).
  - intros pd ty now d. split; [reflexivity | apply updateParsedData_assign_error].
Qed.





(** ** Re-invoking [process] on a failed record *)

Lemma updateOcrResult_assign_fileName o now d :
  fileName (updateOcrResult_assign o now d) = fileName d.
Proof. unfold updateOcrResult_assign. destruct (truthy_num _); reflexivity. Qed.

Lemma updateStatus_assign_fileName st err d :
  fileName (updateStatus_assign st err d) = fileName d.
Proof. unfold updateStatus_assign. destruct err, st; reflexivity. Qed.

Lemma updateParsedData_assign_fileName pd ty now d :
  fileName (updateParsedData_assign pd ty now d) = fileName d.
Proof.
  unfold updateParsedData_assign. destruct ty as [t |]; [destruct (String.eqb t "") |];
    reflexivity.
Qed.

Ltac same_fields :=
  rewrite ?updateStatus_assign_id, ?updateParsedData_assign_id, ?updateOcrResult_assign_id,
    ?updateStatus_assign_fileName, ?updateParsedData_assign_fileName,
    ?updateOcrResult_assign_fileName, ?updateOcrResult_assign_documentType,
    ?updateOcrResult_assign_status, ?updateStatus_assign_status,
    ?updateParsedData_assign_status.

Ltac pipeline_cases_norm := msimpl; repeat (same_fields; pipeline_step); same_fields.

Lemma apply_updates_supplied_status body document now stored pd :
  body_parsedData body = Some (Some pd) ->
  status (apply_updates body document now stored) = completed.
Proof. intros H. unfold apply_updates. rewrite H. reflexivity. Qed.

(** C4 (amended). Re-invoking [process] on a record whose status is
    [failed] never puts it in [processing]: every snapshot the invocation
    saves is [failed] or [completed], and so is the record at the end.
    The final status does not depend on what the earlier failure left in
    the record: two failed records with the same id, file and type end in
    the same status under the same collaborators.  Reprocessing is not the
    only way out of [failed]: a user edit that supplies [parsedData] sets
    [completed] too. *)
Theorem C4_reprocess_failed_record
    (co : Collaborators) (w : World) (id : string) (d : Doc) :
  documents w !! id = Some d ->
  _id d = id ->
  status d = failed ->
  let w' := (processDocument co id w).2 in
  (exists new,
     saved w' = saved w ++ new /\
     Forall (fun s => status s = failed \/ status s = completed) new) /\
  (exists d',
     documents w' !! id = Some d' /\ (status d' = completed \/ status d' = failed)) /\
  (forall w2 d2,
     documents w2 !! id = Some d2 -> _id d2 = id -> status d2 = failed ->
     fileName d2 = fileName d -> fileUrl d2 = fileUrl d ->
     documentType d2 = documentType d ->
     status <$> (documents (processDocument co id w2).2 !! id)
     = status <$> (documents w' !! id)) /\
  (forall body pd now,
     body_parsedData body = Some (Some pd) ->
     status (apply_updates body d now d) = completed).
Proof.
  intros Hd Hid Hst w'. subst w'. split; [| split; [| split]].
  - unfold_monad. rewrite Hd.
    pipeline_cases_norm; rewrite <- ?app_assoc;
      first [ exists []; split; [by rewrite app_nil_r | constructor]
            | eexists; (split; [reflexivity |]);
              repeat (constructor; [same_fields; rewrite ?Hst; by auto |]);
              constructor ].
  - unfold_monad. rewrite Hd.
    pipeline_cases_norm; rewrite ?Hid, ?lookup_insert_eq, ?Hd;
      eexists; (split; [reflexivity |]); same_fields; auto.
  - intros w2 d2 Hd2 Hid2 Hst2 Hfn Hurl Hty. unfold_monad. rewrite Hd, Hd2. msimpl.
    repeat (same_fields; rewrite ?Hfn, ?Hurl, ?Hty; pipeline_step);
      same_fields; rewrite ?Hid, ?Hid2, ?lookup_insert_eq, ?Hd, ?Hd2; cbn; same_fields;
      rewrite ?Hst, ?Hst2; reflexivity.
  - intros body pd now Hb. by eapply apply_updates_supplied_status.
Qed.

Lemma C4_witness :
  let w := Sample.uploaded Sample.ocr_down "invoice" in
  exists new,
    saved (processDocument Sample.all_ok "doc1" w).2 = saved w ++ new /\
    Forall (fun s => status s = failed \/ status s = completed) new.
Proof.
  exact (proj1 (C4_reprocess_failed_record Sample.all_ok
                  (Sample.uploaded Sample.ocr_down "invoice") "doc1"
                  (Sample.timed_out "invoice") eq_refl eq_refl eq_refl)).
Defined.

(** C4, as stated, fails: a record left [failed] by an OCR timeout and
    processed again with every call succeeding is saved as [failed] (with
    its OCR result) and then as [completed], never as [processing]; and a
    user edit that supplies [parsedData] also takes it out of [failed]. *)
Lemma C4_counterexample :
  let w := Sample.uploaded Sample.ocr_down "invoice" in
  (status <$> Sample.record w) = Some failed /\
  map status (saved w) = [failed] /\
  map status (saved (Sample.reprocessed Sample.all_ok w)) = [failed; failed; completed] /\
  (status <$> Sample.record
     (Sample.edited (Some (ROLE_PERMISSIONS guest))
        (Sample.supply {[ "invoice" := Sample.invoice_fields ]}) w))
  = Some completed.
Proof. vm_compute. repeat split. Qed.

(** ** Storing the OCR result *)



(** ** Type resolution *)






(** ** Audit failures *)

Lemma with_audit_ocr a co url : ocr_answer (with_audit a co) url = ocr_answer co url.
Proof. reflexivity. Qed.

Lemma with_audit_classification a co text :
  classification_answer (with_audit a co) text = classification_answer co text.
Proof. reflexivity. Qed.

Lemma with_audit_extraction a co text ty :
  extraction_answer (with_audit a co) text ty = extraction_answer co text ty.
Proof. reflexivity. Qed.

(** A step of a run under [with_audit a co]; [H] says which entries [a]
    accepts. *)
Ltac audit_step H :=
  first
  [ rewrite with_audit_ocr
  | rewrite with_audit_classification
  | rewrite with_audit_extraction
  | match goal with
    | |- context [match ?a ?e with Some _ => _ | None => _ end] =>
        let Heq := fresh "Haudit" in
        destruct (a e) eqn:Heq;
        try (rewrite H in Heq by reflexivity; discriminate Heq)
    end
  | pipeline_step ]; msimpl.

Lemma processDocumentAsync_audit_free co a w id :
  document_state (processDocumentAsync (with_audit a co) id w).2
  = document_state (processDocumentAsync (with_audit (fun _ => None) co) id w).2.
Proof.
  unfold document_state, processDocumentAsync. unfold_monad.
  destruct (documents w !! id) as [d |]; [| reflexivity]. msimpl.
  repeat (same_fields; audit_step I); reflexivity.
Qed.

Lemma processDocument_audit_in_handlers co a w id :
  (forall e, written_in_try e = true -> a e = None) ->
  document_state (processDocument (with_audit a co) id w).2
  = document_state (processDocument (with_audit (fun _ => None) co) id w).2.
Proof.
  intros Ha. unfold document_state, processDocument. unfold_monad.
  destruct (documents w !! id) as [d |]; [| reflexivity]. msimpl.
  repeat (same_fields; audit_step Ha); reflexivity.
Qed.

(** C7 (amended). In the upload-time pipeline no failure of an audit
    write changes the document updates or the outbound calls: they are
    the same under any two audit stores.  In the reprocess pipeline this
    holds for the audit writes made in the [catch] handlers: under two
    audit stores that both accept the entries written inside the [try]
    blocks ([started], [ocr_completed], [ai_parse_completed]) the document
    updates and outbound calls are the same.  A rejected [try]-block
    entry is not covered: it is caught as a failure of its step. *)
Theorem C7_audit_failures_and_document_state
    (co : Collaborators) (w : World) (id : string) (a a' : AuditEntry -> option string) :
  document_state (processDocumentAsync (with_audit a co) id w).2
  = document_state (processDocumentAsync (with_audit a' co) id w).2 /\
  ((forall e, written_in_try e = true -> a e = None /\ a' e = None) ->
   document_state (processDocument (with_audit a co) id w).2
   = document_state (processDocument (with_audit a' co) id w).2).
Proof.
  split.
  - rewrite (processDocumentAsync_audit_free co a), (processDocumentAsync_audit_free co a').
    reflexivity.
  - intros H.
    rewrite (processDocument_audit_in_handlers co a), (processDocument_audit_in_handlers co a');
      [reflexivity | |]; intros e He; by apply H.
Qed.

Lemma C7_witness :
  let w := Sample.world_with (Sample.fresh "invoice") in
  document_state
    (processDocument (with_audit Sample.reject_in_handlers Sample.ocr_down) "doc1" w).2
  = document_state
      (processDocument (with_audit (fun _ => None) Sample.ocr_down) "doc1" w).2.
Proof.
  intros w.
  apply (proj2 (C7_audit_failures_and_document_state Sample.ocr_down w "doc1"
                  Sample.reject_in_handlers (fun _ => None))).
  intros e He. unfold Sample.reject_in_handlers. rewrite He. split; reflexivity.
Defined.

(** C7, as stated, fails in the reprocess pipeline: with the same
    collaborator answers, an audit store that rejects the
    [ai_parse_completed] entry turns a [completed] record into a [failed]
    one at stage [ai_parse], and one that rejects the [started] entry
    stops the invocation before the OCR call. *)
Lemma C7_counterexample :
  let w := Sample.world_with (Sample.fresh "invoice") in
  let rejecting stage :=
    with_audit (audit_create (Sample.audit_down_at stage)) Sample.all_ok in
  (status <$> Sample.record (Sample.reprocessed Sample.all_ok w)) = Some completed /\
  (status <$> Sample.record (Sample.reprocessed (rejecting "ai_parse_completed") w))
  = Some failed /\
  (Sample.record (Sample.reprocessed (rejecting "ai_parse_completed") w) ≫= error)
  = Some (pipeline_error "audit store unavailable" stage_ai_parse) /\
  remote (Sample.reprocessed (rejecting "started") w) = [] /\
  (status <$> Sample.record (Sample.reprocessed (rejecting "started") w)) = Some processing.
Proof. vm_compute. repeat split. Qed.

(** ** Upload validation *)

Lemma validateFileType_spec env mimeType :
  validateFileType env mimeType = true <-> mimeType ∈ allowedFileTypes env.
Proof.
  unfold validateFileType. rewrite existsb_exists. split.
  - intros (x & Hin & Heq). apply String.eqb_eq in Heq. subst x.
    by apply list_elem_of_In.
  - intros Hin. exists mimeType. split; [by apply list_elem_of_In | apply String.eqb_refl].
Qed.

(** C8 (amended). An upload request whose file has a MIME type outside
    the allowed set, or a size above the configured maximum, is rejected
    before anything is stored: the world is unchanged (no document
    record, no stored file, no audit entry) and no processing is started.
    The response is 400 when the requester is logged in and may upload;
    it is 401 when nobody is logged in and 403 when the requester may not
    upload, since the permission check comes first. *)
Theorem C8_bad_file_rejected_before_pipeline
    (env : EnvConfig) (co : Collaborators) (request : UploadRequest) (file : File)
    (w : World) :
  req_file request = Some file ->
  f_type file ∉ allowedFileTypes env \/ (maxFileSize env < f_size file)%Z ->
  exists response,
    upload_POST env co request w = (Returned (response, None), w) /\
    http_status response
    = match req_user request with
      | None => 401%Z
      | Some permissions => if canUpload permissions then 400%Z else 403%Z
      end.
Proof.
  intros Hfile Hbad. unfold upload_POST, requirePermission.
  destruct (req_user request) as [permissions |]; [| by eexists].
  destruct (canUpload permissions); [| by eexists].
  unfold try_catch, bind, connectToDatabase, ret. simpl. rewrite Hfile.
  destruct (validateFileType env (f_type file)) eqn:Hty; simpl.
  - destruct Hbad as [Hbad | Hbad].
    + apply validateFileType_spec in Hty. contradiction.
    + unfold validateFileSize. destruct (Z.leb_spec (f_size file) (maxFileSize env));
        [lia | by eexists].
  - by eexists.
Qed.

Lemma C8_witness :
  exists response,
    upload_POST default_env Sample.all_ok
      (Sample.upload (Some (ROLE_PERMISSIONS admin)) Sample.oversized) empty_world
    = (Returned (response, None), empty_world) /\
    http_status response = 400%Z.
Proof.
  apply (C8_bad_file_rejected_before_pipeline default_env Sample.all_ok
           (Sample.upload (Some (ROLE_PERMISSIONS admin)) Sample.oversized)
           Sample.oversized empty_world eq_refl).
  right. reflexivity.
Defined.

(** C8, as stated, fails on the response code: a guest, who may not
    upload, sending a GIF is answered 403, and a request that is not
    logged in is answered 401; neither stores anything. *)
Lemma C8_counterexample :
  (http_status ∘ fst <$>
     answered (upload_POST default_env Sample.all_ok
                 (Sample.upload (Some (ROLE_PERMISSIONS guest)) Sample.gif) empty_world))
  = Some 403%Z /\
  (http_status ∘ fst <$>
     answered (upload_POST default_env Sample.all_ok
                 (Sample.upload None Sample.gif) empty_world))
  = Some 401%Z /\
  "image/gif" ∉ allowedFileTypes default_env.
Proof.
  split; [reflexivity |]. split; [reflexivity |].
  intros Hin. apply validateFileType_spec in Hin. discriminate Hin.
Qed.

(** * Further properties *)

(** ** OCR helpers *)

Section OcrHelpers.

Import GlmOcrService.

Lemma normalizeFrom_length (pageIndex : Z) (l : list (list LayoutDetail)) :
  length (normalizeFrom pageIndex l) = length (concat l).
Proof.
  revert pageIndex. induction l as [| pg rest IH]; intros pageIndex; simpl.
  - reflexivity.
  - rewrite !length_app, length_map, IH. reflexivity.
Qed.

Lemma normalizeFrom_without_page (pageIndex : Z) (l : list (list LayoutDetail)) :
  map without_page (normalizeFrom pageIndex l) = map without_page (concat l).
Proof.
  revert pageIndex. induction l as [| pg rest IH]; intros pageIndex; simpl.
  - reflexivity.
  - rewrite !map_app, IH. f_equal. rewrite map_map. reflexivity.
Qed.

Lemma normalizeFrom_pages (pageIndex : Z) (l : list (list LayoutDetail)) (item : LayoutDetail) :
  item ∈ normalizeFrom pageIndex l ->
  exists p, page item = Some p /\ (pageIndex + 1 <= p <= pageIndex + Z.of_nat (length l))%Z.
Proof.
  revert pageIndex. induction l as [| pg rest IH]; intros pageIndex; simpl.
  - intros Hin. by apply elem_of_nil in Hin.
  - intros Hin. apply elem_of_app in Hin. destruct Hin as [Hin | Hin].
    + apply list_elem_of_fmap in Hin. destruct Hin as (detail & -> & _).
      exists (pageIndex + 1)%Z. simpl. split; [reflexivity | lia].
    + apply IH in Hin. destruct Hin as (p & Hp & Hrange).
      exists p. split; [exact Hp | lia].
Qed.

Lemma normalizeFrom_lookup (pageIndex : Z) (l : list (list LayoutDetail))
    (j k : nat) (pg : list LayoutDetail) (detail : LayoutDetail) :
  l !! j = Some pg -> pg !! k = Some detail ->
  exists item,
    item ∈ normalizeFrom pageIndex l /\
    without_page item = without_page detail /\
    page item = Some (pageIndex + Z.of_nat j + 1)%Z.
Proof.
  revert pageIndex j. induction l as [| pg0 rest IH]; intros pageIndex j Hj Hk.
  - discriminate.
  - destruct j as [| j]; simpl in Hj.
    + injection Hj as ->. eexists. split; [| split].
      * simpl. apply elem_of_app. left. apply list_elem_of_fmap.
        exists detail. split; [reflexivity |]. by eapply list_elem_of_lookup_2.
      * reflexivity.
      * simpl. f_equal. lia.
    + destruct (IH (pageIndex + 1)%Z j Hj Hk) as (item & Hin & Hsame & Hpage).
      exists item. split; [| split].
      * simpl. apply elem_of_app. by right.
      * exact Hsame.
      * rewrite Hpage. f_equal. lia.
Qed.

(** X1. [normalizeLayoutDetails] flattens the pages in order: it keeps
    the number of items and every field of every item, attaches to each
    item a page number between 1 and the number of pages, and the item at
    position [k] of page [j] (counted from 0) comes out with page
    [j + 1]. *)
Theorem X1_normalizeLayoutDetails_flattens_and_numbers_pages
    (layoutDetails : list (list LayoutDetail)) :
  length (normalizeLayoutDetails layoutDetails) = length (concat layoutDetails) /\
  map without_page (normalizeLayoutDetails layoutDetails)
  = map without_page (concat layoutDetails) /\
  (forall item,
     item ∈ normalizeLayoutDetails layoutDetails ->
     exists p, page item = Some p /\ (1 <= p <= Z.of_nat (length layoutDetails))%Z) /\
  (forall j k pg detail,
     layoutDetails !! j = Some pg -> pg !! k = Some detail ->
     exists item,
       item ∈ normalizeLayoutDetails layoutDetails /\
       without_page item = without_page detail /\
       page item = Some (Z.of_nat j + 1)%Z).
Proof.
  unfold normalizeLayoutDetails. split; [| split; [| split]].
  - apply normalizeFrom_length.
  - apply normalizeFrom_without_page.
  - intros item Hin. destruct (normalizeFrom_pages 0 _ _ Hin) as (p & Hp & Hr).
    exists p. split; [exact Hp | lia].
  - intros j k pg detail Hj Hk.
    destruct (normalizeFrom_lookup 0 _ _ _ _ _ Hj Hk) as (item & Hin & Hs & Hp).
    exists item. split; [exact Hin |]. split; [exact Hs |]. rewrite Hp. f_equal.
Qed.

Lemma X1_witness :
  exists item,
    item ∈ normalizeLayoutDetails [[]; [Sample.item]] /\
    without_page item = without_page Sample.item /\
    page item = Some 2%Z.
Proof.
  exact (proj2 (proj2 (proj2 (X1_normalizeLayoutDetails_flattens_and_numbers_pages
                                [[]; [Sample.item]])))
               1%nat 0%nat [Sample.item] Sample.item eq_refl eq_refl).
Defined.

Lemma string_length_app (s1 s2 : string) :
  String.length (s1 +:+ s2) = (String.length s1 + String.length s2)%nat.
Proof. induction s1 as [| c s1 IH]; simpl; [reflexivity | by rewrite IH]. Qed.

Lemma join_length (sep : string) (parts : list string) :
  String.length (join sep parts)
  = (list_sum (map String.length parts) + (length parts - 1) * String.length sep)%nat.
Proof.
  induction parts as [| x rest IH]; [reflexivity |].
  destruct rest as [| y rest].
  - simpl. lia.
  - change (join sep (x :: y :: rest)) with (x +:+ sep +:+ join sep (y :: rest)).
    rewrite !string_length_app, IH. simpl. lia.
Qed.

Lemma totalContentLength_sum (items : list LayoutDetail) :
  totalContentLength items = Z.of_nat (list_sum (map (fun d => String.length (content d)) items)).
Proof.
  induction items as [| item items IH]; [reflexivity |].
  rewrite totalContentLength_cons, IH. simpl. lia.
Qed.

(** X2. The text [extractText] returns is as long as the contents of all
    items together plus one line feed between consecutive items; with no
    items it is empty. *)
Theorem X2_extractText_length (layoutDetails : list (list LayoutDetail)) :
  Z.of_nat (String.length (extractText layoutDetails))
  = (totalContentLength (concat layoutDetails)
     + Z.of_nat (length (concat layoutDetails) - 1))%Z /\
  (concat layoutDetails = [] -> extractText layoutDetails = "").
Proof.
  unfold extractText. split.
  - rewrite join_length, totalContentLength_sum, map_map, length_map.
    change (String.length nl) with 1%nat. lia.
  - intros ->. reflexivity.
Qed.

Lemma X2_witness : extractText [[]; []] = "".
Proof.
  exact (proj2 (X2_extractText_length [[]; []]) eq_refl).
Defined.

(** X3. When there is at least one layout item, the confidence is one
    fifth of the total content length up to 500 characters, and exactly
    100 from 500 characters on. *)
Theorem X3_calculateConfidence_saturates_at_500 (layoutDetails : list (list LayoutDetail)) :
  concat layoutDetails <> [] ->
  let total := totalContentLength (concat layoutDetails) in
  ((total <= 500)%Z -> (calculateConfidence layoutDetails == inject_Z total / 5)%Q) /\
  ((500 <= total)%Z -> (calculateConfidence layoutDetails == 100)%Q).
Proof.
  intros Hne total. rewrite (calculateConfidence_nonempty _ Hne). fold total.
  split; intros Hle.
  - rewrite Q.min_r.
    + unfold Qeq, Qdiv, Qmult, Qinv, inject_Z. simpl. lia.
    + unfold Qle, Qdiv, Qmult, Qinv, inject_Z. simpl. lia.
  - rewrite Q.min_l; [reflexivity |].
    unfold Qle, Qdiv, Qmult, Qinv, inject_Z. simpl. lia.
Qed.

Lemma X3_witness :
  (calculateConfidence [[Sample.item]] == inject_Z 28 / 5)%Q.
Proof.
  apply (proj1 (X3_calculateConfidence_saturates_at_500 [[Sample.item]]
                  ltac:(discriminate))).
  vm_compute. discriminate.
Defined.

End OcrHelpers.

Lemma base64_file_prefixed (base64Data : string) :
  String.prefix "data:" (base64_file base64Data) = true.
Proof.
  unfold base64_file. destruct (String.prefix "data:" base64Data) eqn:Hp; [exact Hp |].
  reflexivity.
Qed.

(** X4. [parseFromBase64] always sends the OCR API a [data:] URL: an input
    that already is one is sent unchanged, any other input is sent behind
    the PNG header; preparing an input twice changes nothing more.  It
    makes exactly this one call and returns what the API answers. *)
Theorem X4_parseFromBase64_sends_data_url
    (co : Collaborators) (base64Data : string) (w : World) :
  String.prefix "data:" (base64_file base64Data) = true /\
  (String.prefix "data:" base64Data = true -> base64_file base64Data = base64Data) /\
  (String.prefix "data:" base64Data = false ->
   base64_file base64Data = "data:image/png;base64," +:+ base64Data) /\
  base64_file (base64_file base64Data) = base64_file base64Data /\
  parseFromBase64 co base64Data w
  = (ocr_api co (base64_file base64Data),
     set_remote (remote w ++ [OcrCall (base64_file base64Data)]) w).
Proof.
  split; [apply base64_file_prefixed |]. split; [| split; [| split]].
  - intros Hp. unfold base64_file. by rewrite Hp.
  - intros Hp. unfold base64_file. by rewrite Hp.
  - unfold base64_file at 1. by rewrite base64_file_prefixed.
  - reflexivity.
Qed.

Lemma X4_witness :
  base64_file "data:image/jpeg;base64,QUJD" = "data:image/jpeg;base64,QUJD" /\
  base64_file "QUJD" = "data:image/png;base64,QUJD".
Proof.
  split.
  - exact (proj1 (proj2 (X4_parseFromBase64_sends_data_url Sample.all_ok
                           "data:image/jpeg;base64,QUJD" empty_world)) eq_refl).
  - exact (proj1 (proj2 (proj2 (X4_parseFromBase64_sends_data_url Sample.all_ok
                                  "QUJD" empty_world))) eq_refl).
Defined.

(** ** Parsing the replies of the chat API *)

Section ChatReplies.

Import GlmParserService.

Lemma append_nil (s : string) : "" +:+ s = s.
Proof. reflexivity. Qed.

Lemma append_cons (c : ascii) (s1 s2 : string) : String c s1 +:+ s2 = String c (s1 +:+ s2).
Proof. reflexivity. Qed.

Ltac str_simpl := rewrite ?append_cons, ?append_nil; simpl.

Lemma through_last_close_none (s : string) :
  occurs "}" s = false -> through_last_close s = None.
Proof.
  induction s as [| c s IH]; simpl; [reflexivity |].
  intros H. apply orb_false_elim in H. destruct H as [Hc Hs].
  rewrite (IH Hs), Hc. reflexivity.
Qed.

Lemma through_last_close_complete (mid post : string) :
  occurs "}" post = false ->
  through_last_close (mid +:+ "}" +:+ post) = Some (mid +:+ "}").
Proof.
  intros Hpost. induction mid as [| c mid IH].
  - change ("" +:+ "}" +:+ post) with (String "}" post). simpl.
    by rewrite (through_last_close_none _ Hpost).
  - change (String c mid +:+ "}" +:+ post) with (String c (mid +:+ "}" +:+ post)).
    simpl. by rewrite IH.
Qed.

Lemma through_last_close_sound (s t : string) :
  through_last_close s = Some t ->
  exists mid post, s = t +:+ post /\ t = mid +:+ "}" /\ occurs "}" post = false.
Proof.
  revert t. induction s as [| c s IH]; simpl; intros t H; [discriminate |].
  destruct (through_last_close s) as [t' |] eqn:Hs.
  - injection H as <-. destruct (IH t' eq_refl) as (mid & post & -> & -> & Hpost).
    exists (String c mid), post. by repeat split.
  - destruct (Ascii.eqb_spec c "}"); [| discriminate]. injection H as <-. subst c.
    exists "", s. repeat split.
    clear IH. induction s as [| c s IH]; simpl in *; [reflexivity |].
    destruct (through_last_close s); [discriminate |].
    destruct (Ascii.eqb c "}"); [discriminate |]. simpl. by apply IH.
Qed.

Lemma match_braces_complete (pre mid post : string) :
  occurs "{" pre = false -> occurs "}" post = false ->
  match_braces (pre +:+ "{" +:+ mid +:+ "}" +:+ post) = Some ("{" +:+ mid +:+ "}").
Proof.
  intros Hpre Hpost. induction pre as [| c pre IH].
  - change ("" +:+ "{" +:+ mid +:+ "}" +:+ post)
      with (String "{" (mid +:+ "}" +:+ post)).
    simpl. by rewrite (through_last_close_complete mid post Hpost).
  - change (String c pre +:+ "{" +:+ mid +:+ "}" +:+ post)
      with (String c (pre +:+ "{" +:+ mid +:+ "}" +:+ post)).
    simpl. simpl in Hpre. apply orb_false_elim in Hpre. destruct Hpre as [Hc Hpre].
    rewrite Hc. by apply IH.
Qed.

Lemma match_braces_sound (s m : string) :
  match_braces s = Some m ->
  exists pre mid post,
    s = pre +:+ m +:+ post /\ m = "{" +:+ mid +:+ "}" /\
    occurs "{" pre = false /\ occurs "}" post = false.
Proof.
  revert m. induction s as [| c s IH]; simpl; intros m H; [discriminate |].
  destruct (Ascii.eqb_spec c "{") as [-> | Hc].
  - destruct (through_last_close s) as [t |] eqn:Hs; [| discriminate].
    injection H as <-.
    destruct (through_last_close_sound _ _ Hs) as (mid & post & -> & -> & Hpost).
    exists "", mid, post. by repeat split.
  - destruct (IH m H) as (pre & mid & post & -> & -> & Hpre & Hpost).
    exists (String c pre), mid, post. repeat split; try assumption.
    simpl. rewrite Hpre. by destruct (Ascii.eqb_spec c "{").
Qed.

(** X5. The match of the pattern that [parseJsonResponse] falls back on
    is leftmost and greedy: in a text with no opening brace before an
    object and no closing brace after it, the match is the object; and
    every match starts at the first opening brace of the text and ends at
    its last closing brace. *)
Theorem X5_match_braces_leftmost_greedy :
  (forall pre mid post,
     occurs "{" pre = false -> occurs "}" post = false ->
     match_braces (pre +:+ "{" +:+ mid +:+ "}" +:+ post) = Some ("{" +:+ mid +:+ "}")) /\
  (forall s m,
     match_braces s = Some m ->
     exists pre mid post,
       s = pre +:+ m +:+ post /\ m = "{" +:+ mid +:+ "}" /\
       occurs "{" pre = false /\ occurs "}" post = false).
Proof. split; [apply match_braces_complete | apply match_braces_sound]. Qed.

Lemma X5_witness :
  match_braces ("Sure: " +:+ "{" +:+ "a:{b:1}" +:+ "}" +:+ " done")
  = Some ("{" +:+ "a:{b:1}" +:+ "}").
Proof.
  exact (proj1 X5_match_braces_leftmost_greedy "Sure: " "a:{b:1}" " done" eq_refl eq_refl).
Defined.

(** X6. [parseJsonResponse] returns what [JSON.parse] makes of the whole
    reply when that parses; when it does not, and the reply wraps one
    object in text that has no opening brace before it and no closing
    brace after it, the reply is read as that object; in every other case
    of failure it throws the same message.  It never changes the world:
    no call, no write. *)
Theorem X6_parseJsonResponse_recovers_wrapped_object
    (co : Collaborators) (w : World) :
  (forall response v,
     JSON_parse co response = Some v ->
     parseJsonResponse co response w = (Returned v, w)) /\
  (forall pre mid post,
     occurs "{" pre = false -> occurs "}" post = false ->
     JSON_parse co (pre +:+ "{" +:+ mid +:+ "}" +:+ post) = None ->
     parseJsonResponse co (pre +:+ "{" +:+ mid +:+ "}" +:+ post) w
     = (match JSON_parse co ("{" +:+ mid +:+ "}") with
        | Some v => Returned v
        | None => Thrown "无法解析 API 响应中的 JSON"
        end, w)) /\
  (forall response,
     exists r, parseJsonResponse co response w = (r, w) /\
       forall msg, r = Thrown msg -> msg = "无法解析 API 响应中的 JSON").
Proof.
  split; [| split].
  - intros response v H. unfold parseJsonResponse. by rewrite H.
  - intros pre mid post Hpre Hpost Hwhole. unfold parseJsonResponse.
    rewrite Hwhole, (match_braces_complete pre mid post Hpre Hpost).
    destruct (JSON_parse co ("{" +:+ mid +:+ "}")); reflexivity.
  - intros response. unfold parseJsonResponse, ret, throw.
    repeat case_match; eexists; (split; [reflexivity |]); intros msg [= <-]; reflexivity.
Qed.

Lemma X6_witness :
  parseJsonResponse chatty "Here you go: {type:invoice} Anything else?" empty_world
  = (Returned (JObj [("type", JStr "invoice")]), empty_world).
Proof.
  exact (proj1 (proj2 (X6_parseJsonResponse_recovers_wrapped_object chatty empty_world))
               "Here you go: " "type:invoice" " Anything else?" eq_refl eq_refl eq_refl).
Defined.

Lemma classification_answer_confidence co text det :
  classification_answer co text = Returned det -> det_confidence det <> 0%Z.
Proof.
  unfold classification_answer, detectDocumentType, chat, bind, call, modify, perform.
  destruct (chat_api co _) as [reply | msg]; [| discriminate].
  rewrite parseJsonResponse_run. simpl.
  destruct ((parseJsonResponse co reply empty_world).1) as [[] |];
    try (simpl; discriminate);
    unfold ret; cbn [fst]; intros [= <-]; cbn [det_confidence];
    repeat case_match; try discriminate; try lia;
    match goal with H : (_ =? 0)%Z = false |- _ => by apply Z.eqb_neq in H end.
Qed.

(** X7. [detectDocumentType] makes exactly one call to the chat API,
    whether it returns or throws.  What it returns never has an empty
    type or a zero confidence: a reply object without a usable [type]
    gives [other], one without a usable [confidence] gives 50.  A reply
    that parses to [null] makes it throw. *)
Theorem X7_detectDocumentType_defaults
    (co : Collaborators) (text : string) (w : World) :
  (detectDocumentType co text w).2 = set_remote (remote w ++ [ClassifyCall text]) w /\
  (forall det,
     (detectDocumentType co text w).1 = Returned det ->
     det_type det <> "" /\ det_confidence det <> 0%Z) /\
  (forall reply fields,
     chat_api co (prompt_detect co text) = Returned reply ->
     JSON_parse co reply = Some (JObj fields) ->
     assoc_get "type" fields = None -> assoc_get "confidence" fields = None ->
     exists det,
       (detectDocumentType co text w).1 = Returned det /\
       det_type det = "other" /\ det_confidence det = 50%Z) /\
  (forall reply,
     chat_api co (prompt_detect co text) = Returned reply ->
     JSON_parse co reply = Some JNull ->
     exists msg, (detectDocumentType co text w).1 = Thrown msg).
Proof.
  rewrite detectDocumentType_run. cbn [fst snd]. split; [reflexivity |].
  split; [| split].
  - intros det Hdet. split.
    + by eapply classification_answer_nonempty.
    + by eapply classification_answer_confidence.
  - intros reply fields Hchat Hparse Hty Hconf.
    unfold classification_answer, detectDocumentType, chat, bind, call, modify, perform.
    rewrite Hchat. unfold parseJsonResponse. rewrite Hparse.
    eexists. split; [reflexivity |].
    unfold prop_string, prop_number. simpl. rewrite Hty, Hconf. by split.
  - intros reply Hchat Hparse.
    unfold classification_answer, detectDocumentType, chat, bind, call, modify, perform.
    rewrite Hchat. unfold parseJsonResponse. rewrite Hparse. by eexists.
Qed.

Lemma X7_witness :
  exists det,
    (detectDocumentType chatty "scanned text" empty_world).1 = Returned det /\
    det_type det <> "" /\ det_confidence det <> 0%Z.
Proof.
  eexists. split; [vm_compute; reflexivity |].
  apply (proj1 (proj2 (X7_detectDocumentType_defaults chatty "scanned text" empty_world))).
  vm_compute. reflexivity.
Defined.

(** X8. [smartParse] classifies first and extracts with the answered
    type: a failed classification is rethrown before any extraction
    call, a failed extraction is rethrown too; on success the answer
    names the classified type, records it under [detectedType], and holds
    the extraction result under the type's own key (unless the type is
    the word [detectedType] itself, whose key the record then
    overwrites). *)
Theorem X8_smartParse_classifies_then_extracts
    (co : Collaborators) (text : string) (w : World) :
  (forall msg,
     classification_answer co text = Thrown msg ->
     smartParse co text w
     = (Thrown msg, set_remote (remote w ++ [ClassifyCall text]) w)) /\
  (forall det,
     classification_answer co text = Returned det ->
     let ty := det_type det in
     remote (smartParse co text w).2
     = remote w ++ ClassifyCall text :: extract_calls ty text /\
     (forall msg,
        extraction_answer co text ty = Thrown msg ->
        (smartParse co text w).1 = Thrown msg) /\
     (forall data,
        extraction_answer co text ty = Returned data ->
        exists parsed,
          (smartParse co text w).1 = Returned parsed /\
          sp_documentType parsed = ty /\
          sp_parsedData parsed !! "detectedType" = Some (JStr ty) /\
          (ty <> "detectedType" -> sp_parsedData parsed !! ty = Some data) /\
          (forall k, k <> ty -> k <> "detectedType" -> sp_parsedData parsed !! k = None))).
Proof.
  split.
  - intros msg Hc. unfold smartParse, bind. by rewrite detectDocumentType_run, Hc.
  - intros det Hc ty.
    unfold smartParse, bind. rewrite detectDocumentType_run, Hc, parseByType_run.
    fold ty. split; [| split].
    + destruct (extraction_answer co text ty); cbn; by rewrite <- app_assoc.
    + intros msg He. by rewrite He.
    + intros data He. rewrite He. eexists. split; [reflexivity |]. cbn.
      split; [reflexivity |]. split; [apply lookup_insert_eq |]. split.
      * intros Hne. rewrite lookup_insert_ne by done. apply lookup_singleton_eq.
      * intros k Hk1 Hk2. rewrite lookup_insert_ne by done.
        by apply lookup_singleton_ne.
Qed.

Lemma X8_witness :
  exists parsed,
    (smartParse Sample.all_ok "Invoice No: 123, Amount: 500" empty_world).1
    = Returned parsed /\
    sp_documentType parsed = "invoice" /\
    sp_parsedData parsed !! "invoice" = Some Sample.invoice_fields.
Proof.
  destruct (proj2 (X8_smartParse_classifies_then_extracts Sample.all_ok
                     "Invoice No: 123, Amount: 500" empty_world)
              {| det_type := "invoice"; det_confidence := 90; det_reason := "" |}
              eq_refl) as (_ & _ & Hok).
  destruct (Hok Sample.invoice_fields eq_refl) as (parsed & Hrun & Hty & _ & Hdata & _).
  exists parsed. split; [exact Hrun |]. split; [exact Hty |].
  apply Hdata. discriminate.
Defined.

End ChatReplies.

(** ** The record's methods *)






Lemma apply_op_same_file (op : Op) (now : Z) (d : Doc) : same_file d (apply_op op now d).
Proof.
  unfold same_file. destruct op as [st err | o | pd ty | body]; cbn.
  - unfold updateStatus_assign. destruct err, st; by repeat split.
  - unfold updateOcrResult_assign. destruct (truthy_num _); by repeat split.
  - unfold updateParsedData_assign.
    destruct ty as [t |]; [destruct (String.eqb t "") |]; by repeat split.
  - unfold apply_updates.
    destruct (body_documentType body), (body_parsedData body) as [[pd |] |];
      by repeat split.
Qed.

Lemma apply_op_keeps_ocrResult (op : Op) (now : Z) (d : Doc) :
  is_Some (ocrResult d) -> is_Some (ocrResult (apply_op op now d)).
Proof.
  destruct op as [st err | o | pd ty | body]; cbn.
  - unfold updateStatus_assign. by destruct err, st.
  - intros _. unfold updateOcrResult_assign. destruct (truthy_num _); by eexists.
  - unfold updateParsedData_assign.
    by destruct ty as [t |]; [destruct (String.eqb t "") |].
  - unfold apply_updates.
    by destruct (body_documentType body), (body_parsedData body) as [[pd |] |].
Qed.

(** X10. Whatever sequence of [updateStatus], [updateOcrResult],
    [updateParsedData] and user edits is applied to a record, its id,
    file name, file URL, file type, upload date and file size stay what
    they were, and an OCR result, once stored, is never removed. *)
Theorem X10_operations_keep_file_fields (ops : list Op) (now : Z) (d : Doc) :
  same_file d (apply_ops ops now d) /\
  (is_Some (ocrResult d) -> is_Some (ocrResult (apply_ops ops now d))).
Proof.
  revert now d. induction ops as [| op ops IH]; intros now d; simpl.
  - by repeat split.
  - destruct (IH (now + 1)%Z (apply_op op now d)) as [Hfile Hocr].
    pose proof (apply_op_same_file op now d) as Hop.
    split.
    + unfold same_file in *. destruct Hfile as (? & ? & ? & ? & ? & ?).
      destruct Hop as (? & ? & ? & ? & ? & ?). repeat split; congruence.
    + intros H. by apply Hocr, apply_op_keeps_ocrResult.
Qed.

Lemma X10_witness :
  is_Some (ocrResult
             (apply_ops [op_updateStatus failed (failure "timeout" stage_ocr);
                         op_userEdit (Sample.retype "resume")]
                1 (updateOcrResult_assign (ocr_payload
                     {| out_mdResults := "text"; out_layoutDetails := [];
                        out_numPages := None; out_confidence := 0 |}) 0
                     (Sample.fresh "other")))).
Proof.
  apply (proj2 (X10_operations_keep_file_fields _ 1 _)). by eexists.
Defined.

(** ** Counting records *)

Lemma group_count_lookup (keys : list string) (k : string) :
  default 0%nat (group_count keys !! k) = length (filter (fun x => x = k) keys) /\
  (group_count keys !! k = None <-> k ∉ keys).
Proof.
  induction keys as [| x keys [IHn IHnone]]; simpl.
  - split; [reflexivity |]. split; [intros _; apply not_elem_of_nil | reflexivity].
  - destruct (decide (x = k)) as [-> | Hne].
    + rewrite lookup_insert_eq, filter_cons_True by done. simpl. split.
      * by rewrite IHn.
      * split; [discriminate | intros H; exfalso; apply H; by left].
    + rewrite lookup_insert_ne, filter_cons_False by done. split; [exact IHn |].
      rewrite IHnone. split.
      * intros H Hin. apply elem_of_cons in Hin. destruct Hin as [-> | Hin]; [done |].
        by apply H.
      * intros H Hin. apply H. by right.
Qed.

Lemma filter_eq_length_zero (keys : list string) (k : string) :
  length (filter (fun x => x = k) keys) = 0%nat <-> k ∉ keys.
Proof.
  induction keys as [| x keys IH]; simpl.
  - split; [intros _; apply not_elem_of_nil | reflexivity].
  - destruct (decide (x = k)) as [-> | Hne].
    + rewrite filter_cons_True by done. simpl.
      split; [discriminate | intros H; exfalso; apply H; by left].
    + rewrite filter_cons_False, IH by done. split.
      * intros H Hin. apply elem_of_cons in Hin. destruct Hin as [-> | Hin]; [done |].
        by apply H.
      * intros H Hin. apply H. by right.
Qed.

Lemma count_keys (f : Doc -> string) (P : Doc -> bool) (k : string) (l : list Doc) :
  (forall d, f d = k <-> P d = true) ->
  length (filter (fun x => x = k) (f <$> l)) = length (filter (fun d => P d = true) l).
Proof.
  intros HP. induction l as [| d l IH]; [reflexivity |].
  rewrite fmap_cons. destruct (P d) eqn:Hd.
  - rewrite (filter_cons_True _ (f d)) by (by apply HP).
    rewrite (filter_cons_True _ d) by done. simpl. by rewrite IH.
  - rewrite (filter_cons_False _ (f d)).
    + rewrite (filter_cons_False _ d); [exact IH | by rewrite Hd].
    + intros Hk. apply HP in Hk. congruence.
Qed.

Lemma group_count_where (f : Doc -> string) (P : Doc -> bool) (k : string) (w : World) :
  (forall d, f d = k <-> P d = true) ->
  default 0%nat (group_count (f <$> all_documents w) !! k) = count_where P w /\
  (group_count (f <$> all_documents w) !! k = None <-> count_where P w = 0%nat).
Proof.
  intros HP. unfold count_where. rewrite <- (count_keys f P k _ HP).
  destruct (group_count_lookup (f <$> all_documents w) k) as [Hn Hnone].
  split; [exact Hn |]. by rewrite Hnone, filter_eq_length_zero.
Qed.

(** X11. [getCountByType] and [getCountByStatus] give each type (status)
    that occurs among the stored records the number of records that have
    it, and no group to a type (status) that does not occur. *)
Theorem X11_counts_by_type_and_status (w : World) :
  (forall ty,
     default 0%nat (getCountByType w !! ty)
     = count_where (fun d => String.eqb (documentType d) ty) w /\
     (getCountByType w !! ty = None <->
      count_where (fun d => String.eqb (documentType d) ty) w = 0%nat)) /\
  (forall st,
     default 0%nat (getCountByStatus w !! status_name st)
     = count_where (fun d => bool_decide (status d = st)) w /\
     (getCountByStatus w !! status_name st = None <->
      count_where (fun d => bool_decide (status d = st)) w = 0%nat)).
Proof.
  split.
  - intros ty. apply group_count_where. intros d. symmetry. apply String.eqb_eq.
  - intros st. apply group_count_where. intros d.
    rewrite bool_decide_eq_true. by destruct (status d), st.
Qed.

(** ** The pipelines as a whole *)

(** X12. The pipelines only ever append to the audit log: an invocation
    of [processDocument] adds at most three entries and one of
    [processDocumentAsync] at most one, all of them [reparse] entries of
    the processed document; no earlier entry is changed or removed. *)
Theorem X12_pipelines_append_to_audit_log (co : Collaborators) (id : string) (w : World) :
  (exists new,
     auditLogs (processDocument co id w).2 = auditLogs w ++ new /\
     length new <= 3 /\
     Forall (fun e => au_documentId e = id /\ au_action e = act_reparse) new) /\
  (exists new,
     auditLogs (processDocumentAsync co id w).2 = auditLogs w ++ new /\
     length new <= 1 /\
     Forall (fun e => au_documentId e = id /\ au_action e = act_reparse) new).
Proof.
  split; unfold_monad;
    (destruct (documents w !! id) as [d |];
     [| exists []; split; [by rewrite app_nil_r | split; [simpl; lia | constructor]]]);
    pipeline_cases_norm; rewrite <- ?app_assoc;
    first [ exists []; split; [by rewrite app_nil_r | split; [simpl; lia | constructor]]
          | eexists; split; [reflexivity | split; [simpl; lia | by repeat constructor]] ].
Qed.



Lemma same_file_refl (d : Doc) : same_file d d.
Proof. by repeat split. Qed.

Lemma same_file_trans (d1 d2 d3 : Doc) : same_file d1 d2 -> same_file d2 d3 -> same_file d1 d3.
Proof.
  unfold same_file. intros (? & ? & ? & ? & ? & ?) (? & ? & ? & ? & ? & ?).
  repeat split; congruence.
Qed.

Lemma same_file_updateStatus st err d : same_file d (updateStatus_assign st err d).
Proof. apply (apply_op_same_file (op_updateStatus st err) 0). Qed.

Lemma same_file_updateOcrResult o now d : same_file d (updateOcrResult_assign o now d).
Proof. apply (apply_op_same_file (op_updateOcrResult o) now). Qed.

Lemma same_file_updateParsedData pd ty now d :
  same_file d (updateParsedData_assign pd ty now d).
Proof. apply (apply_op_same_file (op_updateParsedData pd ty) now). Qed.

Ltac solve_same_file :=
  repeat first
    [ apply same_file_refl
    | eapply same_file_trans;
      [| first [ apply same_file_updateStatus
               | apply same_file_updateOcrResult
               | apply same_file_updateParsedData ] ] ].

Lemma keeps_ocrResult_updateStatus st err d :
  is_Some (ocrResult d) -> is_Some (ocrResult (updateStatus_assign st err d)).
Proof. apply (apply_op_keeps_ocrResult (op_updateStatus st err) 0). Qed.

Lemma keeps_ocrResult_updateParsedData pd ty now d :
  is_Some (ocrResult d) -> is_Some (ocrResult (updateParsedData_assign pd ty now d)).
Proof. apply (apply_op_keeps_ocrResult (op_updateParsedData pd ty) now). Qed.

Lemma sets_ocrResult o now d : is_Some (ocrResult (updateOcrResult_assign o now d)).
Proof. unfold updateOcrResult_assign. destruct (truthy_num _); by eexists. Qed.

Ltac solve_keeps_ocr :=
  repeat first
    [ assumption
    | apply sets_ocrResult
    | apply keeps_ocrResult_updateStatus
    | apply keeps_ocrResult_updateParsedData ].

(** X14. An invocation of either pipeline touches one record only: the
    stored files and every other record are as before; the processed
    record is still stored afterwards with the same id, file name, file
    URL, file type, upload date and file size, and with an OCR result if
    it had one. *)
Theorem X14_pipelines_touch_one_record
    (co : Collaborators) (w : World) (id : string) (d : Doc) :
  documents w !! id = Some d ->
  _id d = id ->
  forall w',
    w' = (processDocument co id w).2 \/ w' = (processDocumentAsync co id w).2 ->
    uploads w' = uploads w /\
    (forall other, other <> id -> documents w' !! other = documents w !! other) /\
    (exists d',
       documents w' !! id = Some d' /\ same_file d d' /\
       (is_Some (ocrResult d) -> is_Some (ocrResult d'))).
Proof.
  intros Hd Hid w' [-> | ->]; unfold_monad; rewrite Hd;
    pipeline_cases_norm; rewrite ?Hid;
    (split; [reflexivity |]);
    (split; [intros other Hne; by rewrite ?lookup_insert_ne by done |]);
    rewrite ?lookup_insert_eq, ?Hd; eexists; (split; [reflexivity |]);
    (split; [solve_same_file | intros Hocr; solve_keeps_ocr]).
Qed.

Lemma X14_witness :
  let w := Sample.world_with (Sample.fresh "other") in
  uploads (processDocument Sample.all_ok "doc1" w).2 = uploads w.
Proof.
  intros w.
  exact (proj1 (X14_pipelines_touch_one_record Sample.all_ok w "doc1" (Sample.fresh "other")
                  eq_refl eq_refl _ (or_introl eq_refl))).
Defined.

Ltac solve_kinds := apply (bool_decide_unpack _); by vm_compute.

(** X15. Neither pipeline retries a remote call: an invocation makes at
    most one call of each kind (OCR, classification, extraction), hence
    at most three calls, and when it makes any, the first is the OCR call
    for the record's file. *)
Theorem X15_pipelines_never_retry
    (co : Collaborators) (w : World) (id : string) :
  forall w',
    w' = (processDocument co id w).2 \/ w' = (processDocumentAsync co id w).2 ->
    exists new,
      remote w' = remote w ++ new /\
      NoDup (call_kind <$> new) /\
      length new <= 3 /\
      (forall d, documents w !! id = Some d ->
                 new = [] \/ exists rest, new = OcrCall (fileUrl d) :: rest).
Proof.
  intros w' [-> | ->]; unfold_monad;
    (destruct (documents w !! id) as [d |] eqn:Hd;
     [| exists []; split; [by rewrite app_nil_r |];
        split; [apply NoDup_nil_2 |]; split; [simpl; lia | discriminate]]);
    pipeline_cases_norm; rewrite <- ?app_assoc; unfold extract_calls;
    repeat case_match; cbn;
    first [ exists []; split; [by rewrite app_nil_r |];
            split; [apply NoDup_nil_2 |]; split; [simpl; lia |];
            intros d0 _; by left
          | eexists; (split; [reflexivity |]); cbn;
            split; [solve_kinds |]; split; [simpl; lia |];
            intros d0 [= <-]; right; by eexists ].
Qed.

Lemma X15_witness :
  exists new,
    remote (Sample.uploaded Sample.all_ok "other") = [] ++ new /\
    NoDup (call_kind <$> new) /\ length new <= 3 /\
    (forall d, documents (Sample.world_with (Sample.fresh "other")) !! "doc1" = Some d ->
               new = [] \/ exists rest, new = OcrCall (fileUrl d) :: rest).
Proof.
  exact (X15_pipelines_never_retry Sample.all_ok (Sample.world_with (Sample.fresh "other"))
           "doc1" _ (or_intror eq_refl)).
Defined.










(** ** The upload handler *)






(** ** The process route *)

(** X20. [POST /api/documents/process] never touches the stored data
    itself and never throws.  It starts processing, and answers 200,
    exactly when the requester may reprocess and the body carries a
    non-empty [documentId]; otherwise it starts nothing and answers 401
    (not logged in), 403 (not allowed), 500 (unreadable body) or 400 (no
    id). *)
Theorem X20_process_POST_starts_processing_only_when_allowed
    (request : ProcessRequest) (w : World) :
  exists response started,
    process_POST request w = (Returned (response, started), w) /\
    (forall id,
       started = Some id <->
       (exists permissions,
          preq_user request = Some permissions /\
          canReprocessDocuments permissions = true) /\
       preq_documentId request = Returned (Some id) /\ id <> "") /\
    (is_Some started <-> http_status response = 200%Z) /\
    http_status response
    = match preq_user request with
      | None => 401%Z
      | Some permissions =>
          if canReprocessDocuments permissions then
            match preq_documentId request with
            | Thrown _ => 500%Z
            | Returned documentId =>
                if String.eqb (str_or documentId "") "" then 400%Z else 200%Z
            end
          else 403%Z
      end.
Proof.
  unfold process_POST, requirePermission.
  destruct (preq_user request) as [permissions |].
  2: { eexists _, _. split; [reflexivity |]. split; [| split; [| reflexivity]].
       - intros id. split; [discriminate | intros [(p & Hp & _) _]; discriminate].
       - split; [intros [x Hx]; discriminate | discriminate]. }
  destruct (canReprocessDocuments permissions) eqn:Hcan.
  2: { eexists _, _. split; [reflexivity |]. split; [| split; [| reflexivity]].
       - intros id. split; [discriminate |].
         intros [(p & [= <-] & Hp) _]. congruence.
       - split; [intros [x Hx]; discriminate | discriminate]. }
  unfold try_catch, bind, perform, ret.
  destruct (preq_documentId request) as [documentId | msg].
  2: { eexists _, _. split; [reflexivity |]. split; [| split; [| reflexivity]].
       - intros id. split; [discriminate | intros (_ & H & _); discriminate].
       - split; [intros [x Hx]; discriminate | discriminate]. }
  destruct (String.eqb_spec (str_or documentId "") "") as [Hempty | Hfull]; cbn.
  - eexists _, _. split; [reflexivity |]. split; [| split; [| reflexivity]].
    + intros id. split; [discriminate |]. intros (_ & [= ->] & Hne).
      unfold str_or in Hempty. destruct (String.eqb_spec id ""); congruence.
    + split; [intros [x Hx]; discriminate | discriminate].
  - eexists _, _. split; [reflexivity |]. split; [| split; [| reflexivity]].
    + intros id. split.
      * intros [= <-]. split; [by exists permissions |].
        destruct documentId as [s |]; [| done]. unfold str_or in *.
        destruct (String.eqb_spec s ""); [done |]. by split.
      * intros (_ & [= ->] & Hne). unfold str_or.
        destruct (String.eqb_spec id ""); [done | reflexivity].
    + split; [reflexivity | by eexists].
Qed.

Lemma X20_witness :
  exists response started,
    process_POST {| preq_user := Some (ROLE_PERMISSIONS operation);
                    preq_documentId := Returned (Some "doc1") |}
      (Sample.world_with (Sample.fresh "other"))
    = (Returned (response, started), Sample.world_with (Sample.fresh "other")) /\
    started = Some "doc1".
Proof.
  destruct (X20_process_POST_starts_processing_only_when_allowed
              {| preq_user := Some (ROLE_PERMISSIONS operation);
                 preq_documentId := Returned (Some "doc1") |}
              (Sample.world_with (Sample.fresh "other")))
    as (response & started & Hrun & Hstarted & _).
  exists response, started. split; [exact Hrun |].
  apply Hstarted. split; [by exists (ROLE_PERMISSIONS operation) |]. by split.
Defined.



(** ** The document route *)

(** X22. [GET /api/documents/:id] changes no record and no file, and it
    never throws.  Reading is itself audited: it answers 200, with the
    stored record, exactly when the requester may view, the record
    exists and the audit store accepts a [view] entry, and then that
    entry is the one addition to the audit log; in every other case the
    audit log is unchanged too. *)
Theorem X22_document_GET_is_audited
    (co : Collaborators) (user : option Permissions) (id : string) (w : World) :
  exists response data,
    (document_GET co user id w).1 = Returned (response, data) /\
    documents (document_GET co user id w).2 = documents w /\
    uploads (document_GET co user id w).2 = uploads w /\
    (http_status response = 200%Z <->
     exists permissions document,
       user = Some permissions /\ canViewDocuments permissions = true /\
       documents w !! id = Some document /\
       audit_create co {| au_documentId := id; au_fileName := fileName document;
                          au_action := act_view; au_details := None;
                          au_userId := None |} = None) /\
    (http_status response = 200%Z ->
     data = documents w !! id /\
     exists document,
       documents w !! id = Some document /\
       auditLogs (document_GET co user id w).2
       = auditLogs w ++ [{| au_documentId := id; au_fileName := fileName document;
                            au_action := act_view; au_details := None;
                            au_userId := None |}]) /\
    (http_status response <> 200%Z -> (document_GET co user id w).2 = w).
Proof.
  unfold document_GET, requirePermission.
  destruct user as [permissions |].
  2: { eexists _, _. repeat split; try discriminate; try done.
       intros (p & d & H & _). discriminate. }
  destruct (canViewDocuments permissions) eqn:Hcan.
  2: { eexists _, _. repeat split; try discriminate; try done.
       intros (p & d & [= <-] & H & _). congruence. }
  unfold try_catch, bind, connectToDatabase, Document_findById, gets, ret, AuditLog_log,
    modify, throw.
  cbn. destruct (documents w !! id) as [document |] eqn:Hd.
  2: { eexists _, _. repeat split; try discriminate; try done.
       intros (p & d & _ & _ & H & _). discriminate. }
  destruct (audit_create co _) as [msg |] eqn:Haudit; cbn.
  - eexists _, _. repeat split; try discriminate; try done.
    intros (p & d & _ & _ & [= <-] & H). congruence.
  - eexists _, _. repeat split; try done.
    + intros _. by exists permissions, document.
    + by exists document.
Qed.

Lemma X22_witness :
  exists response data,
    (document_GET Sample.all_ok (Some (ROLE_PERMISSIONS guest)) "doc1"
       (Sample.world_with (Sample.fresh "other"))).1 = Returned (response, data) /\
    http_status response = 200%Z /\
    data = Some (Sample.fresh "other").
Proof.
  destruct (X22_document_GET_is_audited Sample.all_ok (Some (ROLE_PERMISSIONS guest)) "doc1"
              (Sample.world_with (Sample.fresh "other")))
    as (response & data & Hrun & _ & _ & Hiff & Hok & _).
  exists response, data. split; [exact Hrun |].
  assert (Hstatus : http_status response = 200%Z).
  { apply Hiff. exists (ROLE_PERMISSIONS guest), (Sample.fresh "other").
    repeat split; reflexivity. }
  split; [exact Hstatus |]. exact (proj1 (Hok Hstatus)).
Defined.

(** X23. [DELETE /api/documents/:id], for a requester who may delete and
    a stored record: the record is removed before the audit entry is
    written, so it is gone whether or not the audit store accepts the
    entry (the answer is 200 if it does, 500 if not); every other
    record and the stored files, the file of the deleted record among
    them, are left as they were.  A later [processDocument] of the id
    answers that the document does not exist and changes nothing. *)
Theorem X23_document_DELETE_removes_record_before_logging
    (co : Collaborators) (permissions : Permissions) (id : string) (w : World)
    (document : Doc)
    (Hallowed : canDeleteDocuments permissions = true)
    (Hstored : documents w !! id = Some document) :
  let entry := {| au_documentId := id; au_fileName := fileName document;
                  au_action := act_delete;
                  au_details := Some [("fileName", JStr (fileName document));
                                      ("documentType", JStr (documentType document))];
                  au_userId := None |} in
  let after := (document_DELETE co (Some permissions) id w).2 in
  exists response,
    (document_DELETE co (Some permissions) id w).1 = Returned response /\
    documents after = delete id (documents w) /\
    documents after !! id = None /\
    (forall other, other <> id -> documents after !! other = documents w !! other) /\
    uploads after = uploads w /\
    match audit_create co entry with
    | None => http_status response = 200%Z /\ auditLogs after = auditLogs w ++ [entry]
    | Some _ => http_status response = 500%Z /\ auditLogs after = auditLogs w
    end /\
    processDocument co id after = (Returned not_found_result, after).
Proof.
  intros entry after. subst after.
  unfold document_DELETE, requirePermission. rewrite Hallowed.
  unfold try_catch, bind, connectToDatabase, Document_findById, Document_findByIdAndDelete,
    gets, ret, AuditLog_log, modify, throw.
  cbn. rewrite Hstored. cbn. fold entry.
  assert (Hmissing : forall w',
            documents w' = delete id (documents w) ->
            processDocument co id w' = (Returned not_found_result, w')).
  { intros w' Hw'. unfold_monad. by rewrite Hw', lookup_delete_eq. }
  destruct (audit_create co entry) as [msg |]; cbn;
    (eexists; split; [reflexivity |]; split; [reflexivity |];
     split; [apply lookup_delete_eq |];
     split; [by intros other Hother; apply lookup_delete_ne |];
     split; [reflexivity |]; split; [by split |]; by apply Hmissing).
Qed.

Lemma X23_witness :
  exists response,
    (document_DELETE Sample.all_ok (Some (ROLE_PERMISSIONS admin)) "doc1"
       (Sample.world_with (Sample.fresh "invoice"))).1 = Returned response /\
    documents (document_DELETE Sample.all_ok (Some (ROLE_PERMISSIONS admin)) "doc1"
                 (Sample.world_with (Sample.fresh "invoice"))).2 !! "doc1" = None.
Proof.
  destruct (X23_document_DELETE_removes_record_before_logging Sample.all_ok
              (ROLE_PERMISSIONS admin) "doc1" (Sample.world_with (Sample.fresh "invoice"))
              (Sample.fresh "invoice") eq_refl eq_refl)
    as (response & Hrun & _ & Hgone & _).
  exists response. split; [exact Hrun | exact Hgone].
Defined.



(** ** Reading the environment *)

Lemma getEnvVar_with_default (process_env : gmap string string) (key fallback : string) :
  getEnvVar process_env key (Some fallback)
  = Returned (match process_env !! key with
              | Some value => if String.eqb value "" then fallback else value
              | None => fallback
              end).
Proof.
  unfold getEnvVar, str_or.
  destruct (process_env !! key) as [value |]; [| by destruct (String.eqb fallback "") eqn:He;
    [apply String.eqb_eq in He; subst |]].
  destruct (String.eqb value ""); [| reflexivity].
  destruct (String.eqb_spec fallback ""); by subst.
Qed.

(** X25. [getEnvVar] throws exactly when the variable is unset and no
    default is given.  A variable set to the empty string counts as set:
    with a default the default is returned, and without one the empty
    string is returned and nothing is thrown.  So [validateEnv] can
    report only a [GLM_API_KEY] that is set, to the empty string or to
    the placeholder; an unset key throws while [env] is built. *)
Theorem X25_getEnvVar_throws_only_when_unset_without_default
    (process_env : gmap string string) (key : string) (defaultValue : option string) :
  ((exists msg, getEnvVar process_env key defaultValue = Thrown msg) <->
   process_env !! key = None /\ defaultValue = None) /\
  (forall value,
     process_env !! key = Some value -> value <> "" ->
     getEnvVar process_env key defaultValue = Returned value) /\
  (process_env !! key = Some "" ->
   getEnvVar process_env key defaultValue = Returned (default "" defaultValue)) /\
  (forall glmApiKey,
     getEnvVar process_env "GLM_API_KEY" None = Returned glmApiKey ->
     process_env !! "GLM_API_KEY" = Some glmApiKey /\
     ((validateEnv glmApiKey).1 = false <->
      glmApiKey = "" \/ glmApiKey = "your_glm_api_key_here")).
Proof.
  split; [| split; [| split]].
  - unfold getEnvVar. split.
    + intros [msg H]. by destruct (process_env !! key), defaultValue.
    + intros [-> ->]. by eexists.
  - intros value Hv Hne. unfold getEnvVar, str_or. rewrite Hv.
    destruct (String.eqb_spec value ""); [done |]. by destruct defaultValue.
  - intros Hv. unfold getEnvVar, str_or. rewrite Hv. cbn.
    destruct defaultValue as [fallback |]; [| reflexivity]. cbn.
    destruct (String.eqb_spec fallback ""); by subst.
  - intros glmApiKey. unfold getEnvVar, str_or.
    destruct (process_env !! "GLM_API_KEY") as [value |]; [| discriminate].
    cbn. destruct (String.eqb_spec value "") as [-> | Hne]; intros [= <-].
    + split; [reflexivity |]. split; [by left | reflexivity].
    + split; [reflexivity |]. unfold validateEnv.
      destruct (String.eqb_spec value "") as [| _]; [done |].
      destruct (String.eqb_spec value "your_glm_api_key_here") as [-> | Hp]; cbn.
      * split; [by right | reflexivity].
      * split; [discriminate | by intros [|]].
Qed.

Lemma X25_witness :
  getEnvVar {[ "GLM_API_KEY" := "" ]} "GLM_API_KEY" None = Returned "" /\
  getEnvVar {[ "UPLOAD_DIR" := "/srv/files" ]} "UPLOAD_DIR" (Some "./public/uploads")
  = Returned "/srv/files".
Proof.
  split.
  - exact (proj1 (proj2 (proj2 (X25_getEnvVar_throws_only_when_unset_without_default
                                  {[ "GLM_API_KEY" := "" ]} "GLM_API_KEY" None)))
             eq_refl).
  - exact (proj1 (proj2 (X25_getEnvVar_throws_only_when_unset_without_default
                           {[ "UPLOAD_DIR" := "/srv/files" ]} "UPLOAD_DIR"
                           (Some "./public/uploads")))
             "/srv/files" eq_refl ltac:(discriminate)).
Defined.

Lemma split_comma_nonempty (value : string) : split_comma value <> [].
Proof.
  destruct value as [| c rest]; [discriminate |]. simpl.
  destruct (Ascii.eqb c ","); [discriminate |]. by destruct (split_comma rest).
Qed.

Lemma join_cons_cons (sep x y : string) (rest : list string) :
  join sep (x :: y :: rest) = x +:+ sep +:+ join sep (y :: rest).
Proof. reflexivity. Qed.

Lemma split_comma_join (value : string) : join "," (split_comma value) = value.
Proof.
  induction value as [| c rest IH]; [reflexivity |]. simpl split_comma.
  destruct (Ascii.eqb_spec c ",") as [-> | Hc].
  - pose proof (split_comma_nonempty rest) as Hne.
    destruct (split_comma rest) as [| first others]; [done |].
    rewrite join_cons_cons, IH. reflexivity.
  - pose proof (split_comma_nonempty rest) as Hne.
    destruct (split_comma rest) as [| first others]; [done |].
    destruct others as [| second others].
    + simpl in *. by rewrite IH.
    + rewrite join_cons_cons in *. rewrite append_cons, IH. reflexivity.
Qed.

Lemma split_comma_pieces (value : string) :
  Forall (fun piece => occurs "," piece = false) (split_comma value).
Proof.
  induction value as [| c rest IH]; [by repeat constructor |]. simpl split_comma.
  destruct (Ascii.eqb_spec c ",") as [-> | Hc].
  - by constructor.
  - pose proof (split_comma_nonempty rest) as Hne.
    destruct (split_comma rest) as [| first others]; [done |].
    inversion IH as [| ? ? Hfirst Hothers]; subst. constructor; [| exact Hothers].
    simpl. rewrite Hfirst. by destruct (Ascii.eqb_spec c ",").
Qed.

Lemma split_comma_without_comma (value : string) :
  occurs "," value = false -> split_comma value = [value].
Proof.
  induction value as [| c rest IH]; [reflexivity |]. simpl.
  destruct (Ascii.eqb c ","); [discriminate |]. simpl. intros H. by rewrite (IH H).
Qed.

(** X26. [parseStringArray] cuts its argument at every comma and
    nowhere else: the pieces (before trimming) contain no comma, joined
    with commas they give the argument back, and a value without a
    comma is one piece.  The result is never empty; the empty string
    gives one entry, the trimmed empty string. *)
Theorem X26_parseStringArray_cuts_at_commas (trim : string -> string) (value : string) :
  join "," (split_comma value) = value /\
  Forall (fun piece => occurs "," piece = false) (split_comma value) /\
  (occurs "," value = false -> parseStringArray trim value = [trim value]) /\
  parseStringArray trim value <> [] /\
  parseStringArray trim "" = [trim ""].
Proof.
  split; [apply split_comma_join |].
  split; [apply split_comma_pieces |]. split; [| split; [| reflexivity]].
  - intros H. unfold parseStringArray. by rewrite split_comma_without_comma.
  - unfold parseStringArray. pose proof (split_comma_nonempty value) as Hne.
    by destruct (split_comma value).
Qed.

Lemma X26_witness :
  parseStringArray (fun s => s) "image/png" = ["image/png"].
Proof.
  exact (proj1 (proj2 (proj2 (X26_parseStringArray_cuts_at_commas
                                (fun s => s) "image/png"))) eq_refl).
Defined.

(** X27. The upload limits of [env] never fail to load.  A
    [MAX_FILE_SIZE] that is unset, empty or not a number gives the
    10 MB default (given that [parseInt] reads the default text as
    10485760); an [ALLOWED_FILE_TYPES] that is unset or empty gives the
    four default types, trimmed, and the list of allowed types is never
    empty. *)
Theorem X27_upload_limits_fall_back_to_defaults
    (parseInt : string -> option Z) (trim : string -> string)
    (process_env : gmap string string)
    (HparseInt : parseInt "10485760" = Some 10485760%Z) :
  (exists size,
     env_maxFileSize parseInt process_env = Returned size /\
     (process_env !! "MAX_FILE_SIZE" = None \/ process_env !! "MAX_FILE_SIZE" = Some "" \/
      (exists value, process_env !! "MAX_FILE_SIZE" = Some value /\ parseInt value = None) ->
      size = 10485760%Z)) /\
  (exists types,
     env_allowedFileTypes trim process_env = Returned types /\
     types <> [] /\
     (process_env !! "ALLOWED_FILE_TYPES" = None \/
      process_env !! "ALLOWED_FILE_TYPES" = Some "" ->
      types = trim <$> ["image/png"; "image/jpeg"; "image/jpg"; "application/pdf"])).
Proof.
  split.
  - unfold env_maxFileSize. rewrite getEnvVar_with_default. eexists. split; [reflexivity |].
    unfold parseNumber. intros [-> | [-> | (value & -> & Hnan)]].
    + by rewrite HparseInt.
    + cbn. by rewrite HparseInt.
    + destruct (String.eqb value ""); [by rewrite HparseInt | by rewrite Hnan].
  - unfold env_allowedFileTypes. rewrite getEnvVar_with_default. eexists.
    split; [reflexivity |]. split.
    + unfold parseStringArray.
      match goal with |- context [split_comma ?s] =>
        pose proof (split_comma_nonempty s) as Hne; by destruct (split_comma s) end.
    + by intros [-> | ->].
Qed.

Lemma X27_witness :
  exists size,
    env_maxFileSize (fun s => if String.eqb s "10485760" then Some 10485760%Z else None)
      {[ "MAX_FILE_SIZE" := "ten megabytes" ]} = Returned size /\
    size = 10485760%Z.
Proof.
  destruct (X27_upload_limits_fall_back_to_defaults
              (fun s => if String.eqb s "10485760" then Some 10485760%Z else None)
              (fun s => s) {[ "MAX_FILE_SIZE" := "ten megabytes" ]} eq_refl)
    as [(size & Hrun & Hdefault) _].
  exists size. split; [exact Hrun |]. apply Hdefault.
  right. right. by exists "ten megabytes".
Defined.

(** ** Who may call what *)

Lemma document_PUT_admitted co permissions id body w :
  canViewDocuments permissions = true ->
  exists response,
    (document_PUT co (Some permissions) id body w).1 = Returned response /\
    http_status response ∈ [200; 404; 500]%Z.
Proof.
  intros Hview. unfold document_PUT, requirePermission. rewrite Hview.
  unfold try_catch, bind, connectToDatabase, Document_findById, Document_findByIdAndUpdate,
    new_Date, gets, ret, AuditLog_log, modify, throw.
  cbn. destruct (documents w !! id) as [document |] eqn:Hd;
    [| eexists; split; [reflexivity | set_solver]].
  destruct (body_parsedData body) as [[pd |] |]; cbn; rewrite Hd; cbn;
    destruct (audit_create co _); cbn; eexists; (split; [reflexivity | set_solver]).
Qed.

Lemma upload_POST_admitted env co permissions file documentType w :
  canUpload permissions = true ->
  exists response started,
    (upload_POST env co {| req_user := Some permissions; req_file := file;
                           req_documentType := documentType |} w).1
    = Returned (response, started) /\
    http_status response ∈ [201; 400; 500]%Z.
Proof.
  intros Hcan. unfold upload_POST, requirePermission. cbn. rewrite Hcan.
  unfold try_catch, bind, connectToDatabase, ret, saveFile, modify, new_Date,
    Document_create, AuditLog_log, throw.
  cbn. destruct file as [file |]; [| eexists _, _; split; [reflexivity | set_solver]].
  destruct (validateFileType env (f_type file)); cbn;
    [| eexists _, _; split; [reflexivity | set_solver]].
  destruct (validateFileSize env (f_size file)); cbn;
    [| eexists _, _; split; [reflexivity | set_solver]].
  destruct (audit_create co _); cbn; eexists _, _; (split; [reflexivity | set_solver]).
Qed.

Lemma document_DELETE_admitted co permissions id w :
  canDeleteDocuments permissions = true ->
  exists response,
    (document_DELETE co (Some permissions) id w).1 = Returned response /\
    http_status response ∈ [200; 404; 500]%Z.
Proof.
  intros Hcan. unfold document_DELETE, requirePermission. rewrite Hcan.
  unfold try_catch, bind, connectToDatabase, Document_findById, Document_findByIdAndDelete,
    gets, ret, AuditLog_log, modify, throw.
  cbn. destruct (documents w !! id) as [document |];
    [| eexists; split; [reflexivity | set_solver]].
  cbn. destruct (audit_create co _); cbn; eexists; (split; [reflexivity | set_solver]).
Qed.

Lemma process_POST_admitted permissions documentId w :
  canReprocessDocuments permissions = true ->
  exists response started,
    (process_POST {| preq_user := Some permissions; preq_documentId := documentId |} w).1
    = Returned (response, started) /\
    http_status response ∈ [200; 400; 500]%Z.
Proof.
  intros Hcan. unfold process_POST, requirePermission. cbn. rewrite Hcan.
  unfold try_catch, bind, perform, ret.
  destruct documentId as [documentId | msg];
    [| eexists _, _; split; [reflexivity | set_solver]].
  destruct (String.eqb (str_or documentId "") ""); cbn;
    eexists _, _; (split; [reflexivity | set_solver]).
Qed.

(** X28. The handlers by role.  Every role, [guest] included, gets past
    the permission check of [PUT /api/documents/:id], which asks for the
    permission to view: the answer is 200, 404 or 500.  Uploading,
    deleting and reprocessing are refused to a [guest] with 403, nothing
    is changed and nothing is started; an [admin] and an [operation]
    user are never refused there. *)
Theorem X28_handlers_access_by_role
    (env : EnvConfig) (co : Collaborators) (role : UserRole) (w : World) :
  let user := Some (ROLE_PERMISSIONS role) in
  (forall id body,
     exists response,
       (document_PUT co user id body w).1 = Returned response /\
       http_status response ∈ [200; 404; 500]%Z) /\
  (forall file documentType id documentId,
     exists uploadResponse uploadStarted deleteResponse processResponse processStarted,
       (upload_POST env co {| req_user := user; req_file := file;
                              req_documentType := documentType |} w).1
       = Returned (uploadResponse, uploadStarted) /\
       (document_DELETE co user id w).1 = Returned deleteResponse /\
       (process_POST {| preq_user := user; preq_documentId := documentId |} w).1
       = Returned (processResponse, processStarted) /\
       match role with
       | guest =>
           http_status uploadResponse = 403%Z /\ uploadStarted = None /\
           http_status deleteResponse = 403%Z /\
           http_status processResponse = 403%Z /\ processStarted = None /\
           (upload_POST env co {| req_user := user; req_file := file;
                                  req_documentType := documentType |} w).2 = w /\
           (document_DELETE co user id w).2 = w
       | admin | operation =>
           http_status uploadResponse ∈ [201; 400; 500]%Z /\
           http_status deleteResponse ∈ [200; 404; 500]%Z /\
           http_status processResponse ∈ [200; 400; 500]%Z
       end).
Proof.
  intros user. subst user. split.
  - intros id body. apply document_PUT_admitted. by destruct role.
  - intros file documentType id documentId. destruct role.
    3: { eexists _, _, _, _, _. by repeat split. }
    all: match goal with
         | |- context [ROLE_PERMISSIONS ?r] =>
             destruct (upload_POST_admitted env co (ROLE_PERMISSIONS r) file documentType w
                         eq_refl) as (ur & us & Hu & Hus);
             destruct (document_DELETE_admitted co (ROLE_PERMISSIONS r) id w eq_refl)
               as (dr & Hd & Hds);
             destruct (process_POST_admitted (ROLE_PERMISSIONS r) documentId w eq_refl)
               as (pr & ps & Hp & Hps)
         end;
      by exists ur, us, dr, pr, ps.
Qed.
